(** * syukei-san: the vote-data lifecycle of [app.js]

    A shallow embedding of the route handlers of [src/app.js]
    (create a poll, show its form, vote, show the result) together with
    the collaborators they call, and the properties the specification
    states about them.

    JavaScript strings are sequences of code units; the handlers only
    look at the units LF (10) and CR (13), so they are embedded as
    [string].  Objects used as dictionaries are [gmap string _]. *)

From Stdlib Require Import ZArith Lia Ascii String.
From stdpp Require Import base strings gmap list sorting.

Local Open Scope string_scope.
Local Open Scope Z_scope.

#[local] Set Warnings "-clear-no-such-hyp".

(** ** Strings *)

Module Js.

Definition LF : ascii := Ascii.ascii_of_nat 10.
Definition CR : ascii := Ascii.ascii_of_nat 13.

Definition is_lf (c : ascii) : bool := Ascii.eqb c LF.
Definition is_cr (c : ascii) : bool := Ascii.eqb c CR.

(** Puts [c] in front of the piece being read. *)
Definition push_front (c : ascii) (pieces : list string) : list string :=
  match pieces with
  | [] => [String c ""]
  | piece :: rest => String c piece :: rest
  end.

(** [s.split(/\r?\n/)]: the pieces of [s] between the matches of the
    pattern, scanning from the left.  At a position holding CR the
    pattern matches only when LF follows; a lone CR stays in its piece.
    The pattern never matches the empty string, so the empty input
    gives one empty piece. *)
Fixpoint split_newline (s : string) : list string :=
  match s with
  | "" => [""]
  | String c rest =>
      if is_lf c then "" :: split_newline rest
      else
        match rest with
        | String c2 rest2 =>
            if is_cr c && is_lf c2 then "" :: split_newline rest2
            else push_front c (split_newline rest)
        | "" => push_front c (split_newline rest)
        end
  end.

(** Truthiness of a string value: every string but the empty one. *)
Definition truthy (v : string) : bool :=
  match v with
  | "" => false
  | String _ _ => true
  end.

(** [self.indexOf(elem)] with strict equality: the first index holding
    [elem], or [-1]. *)
Fixpoint indexOf_from (i : Z) (self : list string) (elem : string) : Z :=
  match self with
  | [] => -1
  | x :: rest => if String.eqb x elem then i else indexOf_from (i + 1) rest elem
  end.

Definition indexOf (self : list string) (elem : string) : Z :=
  indexOf_from 0 self elem.

(** [self.filter(f)] where the callback receives the element, its
    index and the array itself. *)
Fixpoint filter_from {A} (f : A -> Z -> list A -> bool) (self : list A)
    (index : Z) (todo : list A) : list A :=
  match todo with
  | [] => []
  | elem :: rest =>
      if f elem index self
      then elem :: filter_from f self (index + 1) rest
      else filter_from f self (index + 1) rest
  end.

Definition filter_indexed {A} (f : A -> Z -> list A -> bool) (self : list A) : list A :=
  filter_from f self 0 self.

End Js.

(** ** Normalisation of the submitted options ([app.post('/create')]) *)

(** [sanitizedData.data.split(/\r?\n/).filter(v => v)
      .filter((elem, index, self) => self.indexOf(elem) === index)] *)
Definition normalize_data (data : string) : list string :=
  Js.filter_indexed (fun elem index self => Js.indexOf self elem =? index)
    (List.filter (fun v => Js.truthy v) (Js.split_newline data)).

(** Removing duplicates in the words of the specification: every
    option is kept at its first occurrence, the later ones are dropped. *)
Fixpoint keep_first (seen : list string) (options : list string) : list string :=
  match options with
  | [] => []
  | o :: rest =>
      if bool_decide (o ∈ seen) then keep_first seen rest
      else o :: keep_first (seen ++ [o]) rest
  end.

(** The two filters of the handler over the pieces of its own [split],
    in recursive form: a step of the proofs, not the specification's
    side (that one is [text_lines] below, which reads the text itself). *)
Definition nonblank_lines (data : string) : list string :=
  List.filter (fun l => negb (String.eqb l "")) (Js.split_newline data).

Definition distinct_options (data : string) : list string :=
  keep_first [] (nonblank_lines data).

Definition sample_options : string :=
  String "A" (String Js.LF (String "A" (String Js.LF
    (String "B" (String Js.LF (String Js.LF "")))))).

(** ** Documents, requests and the world a handler runs in *)

(** A poll as its file holds it: [JSON.stringify(sanitizedData)] once
    [data] and [created_at] are set, and the tallies added by voting.
    A count is a number of accepted votes. *)
Record Poll := mkPoll {
  poll_name : option string;
  poll_data : list string;
  poll_created_at : Z;
  poll_votes : gmap string nat
}.

(** What a file holds: the text of a poll document, or text that
    [JSON.parse] does not accept. *)
Inductive Content :=
| Json (p : Poll)
| Malformed (raw : string).

(** The object [sanitizeData(req)] returns.  A field is [None] when it
    holds no string (it is [undefined]). *)
Record SanitizedData := mkSanitized {
  sd_name : option string;
  sd_data : option string
}.

(** [req.session] as the create handler uses it. *)
Record Session := mkSession {
  errorMessages : option (list string);
  session_body : option (gmap string string)
}.

Record Request := mkRequest {
  baseUrl : string;
  params_id : string;
  body : gmap string string;
  cookies : gmap string string;
  query_is_voted : option string
}.

(** The values a handler takes from outside: [Date.now()] and the
    identifier a new [voteData] instance draws. *)
Record Env := mkEnv {
  now : Z;
  fresh_id : string
}.

(** The calls with an effect, in the order a handler makes them. *)
Inductive Call :=
| SessionAssign
| SessionNull
| MkdirSync (dir : string)
| WriteFileSync (path : string)
| ReadFileSync (path : string)
| SetCookie (name : string)
| Vote (key : option string).

(** What a handler can change.  [res_cookies] holds the cookies the
    calls of the handler itself set on the response; the cookies of the
    session and CSRF middleware are outside the model. *)
Record World := mkWorld {
  files : gmap string Content;
  dirs : gset string;
  session : option Session;
  res_cookies : gset string;
  trace : list Call
}.

(** The failures of the specification's taxonomy that are exceptions:
    [NotFound] is the ENOENT error of [readFileSync], [CorruptData] the
    SyntaxError of [JSON.parse], [TypeError] a method call on a value
    that has no such method.  A validation failure is no exception: the
    create handler redirects back with the messages in the session. *)
Inductive Failure :=
| NotFound
| CorruptData
| TypeError.

Inductive Outcome (A : Type) :=
| Ok (a : A)
| Throw (e : Failure).
Arguments Ok {A} a.
Arguments Throw {A} e.

Inductive View :=
| FormView (id : string) (data : list string) (name : option string) (isVoted : bool)
| ResultView (data : list (string * nat)) (name : option string).

Inductive Response :=
| Redirect (url : string)
| Render (v : View).

(** ** The handler monad: state with exceptions *)

Definition M (A : Type) : Type := World -> Outcome A * World.

Definition ret {A} (a : A) : M A := fun w => (Ok a, w).

Definition bind {A B} (c : M A) (k : A -> M B) : M B :=
  fun w =>
    match c w with
    | (Ok a, w') => k a w'
    | (Throw e, w') => (Throw e, w')
    end.

Definition throw {A} (e : Failure) : M A := fun w => (Throw e, w).

Declare Scope handler_scope.
Delimit Scope handler_scope with handler.
Notation "x <- c ;; k" := (bind c (fun x => k))
  (at level 100, c at next level, right associativity) : handler_scope.
Notation "c ;; k" := (bind c (fun _ => k))
  (at level 100, right associativity) : handler_scope.
Local Open Scope handler_scope.

Definition record (c : Call) (w : World) : World :=
  mkWorld (files w) (dirs w) (session w) (res_cookies w) (trace w ++ [c]).

(** The world at the entry of a handler: the session middleware has
    put a session object on the request, nothing was called yet. *)
Definition enter (fs : gmap string Content) (ds : gset string) (s : Session) : World :=
  mkWorld fs ds (Some s) ∅ [].

(** ** The file system and the session *)

(** The file system is a map from the full path of a file to what the
    file holds, with the set of the directories made.  Reading a path
    the map does not hold throws ENOENT; rights, devices and the other
    errors of Node's [fs] are outside the model. *)
Module Fs.

(** [fileSystem.readFileSync(path, {encoding: "utf-8"})]. *)
Definition readFileSync (path : string) : M Content :=
  fun w =>
    let w' := record (ReadFileSync path) w in
    match files w !! path with
    | Some c => (Ok c, w')
    | None => (Throw NotFound, w')
    end.

(** [fileSystem.mkdirSync(dir, {recursive: true})]: [dir] exists
    afterwards.  The set lists the directories asked for; the missing
    ancestors that [recursive] makes with them are not listed. *)
Definition mkdirSync (dir : string) : M unit :=
  fun w =>
    (Ok tt, record (MkdirSync dir)
              (mkWorld (files w) ({[dir]} ∪ dirs w) (session w) (res_cookies w) (trace w))).

(** [fileSystem.writeFileSync(path, content)]. *)
Definition writeFileSync (path : string) (c : Content) : M unit :=
  fun w =>
    (Ok tt, record (WriteFileSync path)
              (mkWorld (<[path := c]> (files w)) (dirs w) (session w) (res_cookies w) (trace w))).

End Fs.

Definition JSON_stringify (p : Poll) : Content := Json p.

Definition JSON_parse (c : Content) : M Poll :=
  match c with
  | Json p => ret p
  | Malformed _ => throw CorruptData
  end.

(** [req.session.errorMessages = msgs; req.session.body = b]. *)
Definition session_assign (msgs : list string) (b : gmap string string) : M unit :=
  fun w =>
    match session w with
    | Some _ =>
        (Ok tt, record SessionAssign
                  (mkWorld (files w) (dirs w) (Some (mkSession (Some msgs) (Some b)))
                     (res_cookies w) (trace w)))
    | None => (Throw TypeError, w)
    end.

(** [req.session = null]. *)
Definition session_null : M unit :=
  fun w =>
    (Ok tt, record SessionNull
              (mkWorld (files w) (dirs w) None (res_cookies w) (trace w))).

(** ** The collaborators outside [app.js] *)

(** What [app.js] takes from modules that are not part of it and that
    the specification leaves open: the form sanitizer, the messages the
    validation collects, the layout of the data directory, Node's
    [path.dirname] and the name of the per-poll cookie. *)
Class Libs := mkLibs {
  (** [voteDataInstance.sanitizeData(req)] *)
  sanitizeData : Request -> SanitizedData;
  (** [createErrorMessageInstance.getMessages()] after
      [valueScheme.fit(sanitizedData, validationSchemes.createVoteData, ...)]
      has added every error of the schema *)
  getMessages : SanitizedData -> list string;
  (** the path [voteDataInstance.filePath()] derives from the identifier *)
  path_of_id : string -> string;
  (** [path.dirname] *)
  dirname : string -> string;
  (** the name of the cookie that marks a poll as voted *)
  cookie_of_id : string -> string
}.

(** Modelled from the spec: [libs/vote_data.js], the class [voteData],
    is not in [src/]; an instance stands for one poll and carries its
    [id], which [app.js] reads as [voteDataInstance.id]. *)
Record voteData := mkVoteData { vd_id : string }.

(** Modelled from the spec: [libs/vote_data.js] is not in [src/];
    section 4.1: [new voteData()] generates a new unique identifier,
    [new voteData(id)] stands for the existing identifier [id]. *)
Definition new_voteData (env : Env) (id : option string) : voteData :=
  match id with
  | Some i => mkVoteData i
  | None => mkVoteData (fresh_id env)
  end.

(** The tally of an option: its entry in [votes], zero when it has none. *)
Definition count_of (votes : gmap string nat) (option : string) : nat :=
  default 0%nat (votes !! option).

(** Modelled from the spec: [libs/vote_data.js] is not in [src/]; this
    is the Vote Aggregator of section 4.3.  [vote] increments the tally
    of [optionKey] by one, creating the entry if absent, only if
    [optionKey] is one of the poll's known options; otherwise the vote
    is ignored. *)
Definition vote (p : Poll) (optionKey : string) : Poll :=
  if bool_decide (optionKey ∈ poll_data p)
  then mkPoll (poll_name p) (poll_data p) (poll_created_at p)
         (<[optionKey := S (count_of (poll_votes p) optionKey)]> (poll_votes p))
  else p.

(** Modelled from the spec: [libs/vote_data.js] is not in [src/].
    [insert_by_count] puts a pair behind the pairs with a larger count
    and in front of the others, so that pairs with equal counts keep
    the order in which they are inserted. *)
Fixpoint insert_by_count (x : string * nat) (sorted : list (string * nat))
    : list (string * nat) :=
  match sorted with
  | [] => [x]
  | y :: rest =>
      if (x.2 <? y.2)%nat then y :: insert_by_count x rest
      else x :: y :: rest
  end.

Fixpoint sort_by_count (pairs : list (string * nat)) : list (string * nat) :=
  match pairs with
  | [] => []
  | x :: rest => insert_by_count x (sort_by_count rest)
  end.

(** The (option, count) pairs of a poll in the original option order;
    an option without an entry in [votes] counts zero. *)
Definition tallies (p : Poll) : list (string * nat) :=
  (fun o => (o, count_of (poll_votes p) o)) <$> poll_data p.

(** [a] may stand in front of [b]: its count is not smaller. *)
Definition count_ge (a b : string * nat) : Prop := (b.2 <= a.2)%nat.

(** Modelled from the spec: [libs/vote_data.js] is not in [src/];
    section 4.3: [sortData(poll)] is the sequence of (option, count),
    descending by count, stable tie-break on original option order. *)
Definition sortData (p : Poll) : list (string * nat) :=
  sort_by_count (tallies p).

Module VoteData.
Section Methods.
Context `{Libs}.

(** Modelled from the spec: [libs/vote_data.js] is not in [src/];
    section 4.1: the storage path is computed from the identifier
    alone, the same path for the same identifier. *)
Definition filePath (this : voteData) : string := path_of_id (vd_id this).

(** Modelled from the spec: [libs/vote_data.js] is not in [src/];
    section 4.2, [load(id)]: reads and parses the poll file, fails with
    NotFound if the file is absent and with CorruptData if it is not
    valid structured data. *)
Definition data (this : voteData) : M Poll :=
  c <- Fs.readFileSync (filePath this) ;;
  JSON_parse c.

(** Modelled from the spec: [libs/vote_data.js] is not in [src/];
    section 3: the [name] of the poll of the file. *)
Definition name (this : voteData) : M (option string) :=
  p <- data this ;;
  ret (poll_name p).

(** Modelled from the spec: [libs/vote_data.js] is not in [src/];
    section 4.4, [hasVoted(requestCookies, pollId)]: checks for a
    per-poll marker cookie. *)
Definition isVoted (this : voteData) (req : Request) : bool :=
  bool_decide (is_Some (cookies req !! cookie_of_id (vd_id this))).

(** Modelled from the spec: [libs/vote_data.js] is not in [src/];
    section 4.4, [markVoted(pollId, response)]: sets a cookie scoped to
    that poll id. *)
Definition setUniquenessCookie (this : voteData) : M unit :=
  fun w =>
    let c := cookie_of_id (vd_id this) in
    (Ok tt, record (SetCookie c)
              (mkWorld (files w) (dirs w) (session w) ({[c]} ∪ res_cookies w) (trace w))).

(** Modelled from the spec: [libs/vote_data.js] is not in [src/];
    section 4.3: the method applies [vote] to the poll of the file and
    persists the updated poll synchronously.  [req.body.key] is
    [undefined] when the form has no such field; [undefined] is not an
    option string. *)
Definition vote (this : voteData) (key : option string) : M unit :=
  (fun w => (Ok tt, record (Vote key) w)) ;;
  p <- data this ;;
  Fs.writeFileSync (filePath this)
    (JSON_stringify (from_option (vote p) p key)).

(** Modelled from the spec: [libs/vote_data.js] is not in [src/];
    the method sorts the tallies of the poll of the file. *)
Definition sortData (this : voteData) : M (list (string * nat)) :=
  p <- data this ;;
  ret (sortData p).

End Methods.
End VoteData.

(** ** The route handlers of [app.js] *)

Section Handlers.
Context `{Libs}.

(** The document [app.post('/create')] writes: the sanitized fields
    with [data] replaced by the normalised options and [created_at]
    added. *)
Definition created_poll (sanitizedData : SanitizedData) (text : string) (t : Z) : Poll :=
  mkPoll (sd_name sanitizedData) (normalize_data text) t ∅.

(** [sanitizedData.data.split(...)] throws a TypeError when the field
    holds no string. *)
Definition data_text (sanitizedData : SanitizedData) : M string :=
  match sd_data sanitizedData with
  | Some text => ret text
  | None => throw TypeError
  end.

(** [app.post('/create', parseForm, csrfProtection, ...)] *)
Definition post_create (env : Env) (req : Request) : M Response :=
  let voteDataInstance := new_voteData env None in
  let sanitizedData := sanitizeData req in
  let errorMessages := getMessages sanitizedData in
  if (0 <? length errorMessages)%nat then
    session_assign errorMessages (body req) ;;
    ret (Redirect (baseUrl req +:+ "/#container"))
  else
    session_null ;;
    let filePath := VoteData.filePath voteDataInstance in
    Fs.mkdirSync (dirname filePath) ;;
    text <- data_text sanitizedData ;;
    Fs.writeFileSync filePath
      (JSON_stringify (created_poll sanitizedData text (now env))) ;;
    ret (Redirect (baseUrl req +:+ "/form/" +:+ vd_id voteDataInstance +:+ "/")).

(** [req.query.is_voted ? true : false] *)
Definition is_voted_flag (req : Request) : bool :=
  match query_is_voted req with
  | Some v => Js.truthy v
  | None => false
  end.

(** [app.get('/form/:id/', csrfProtection, ...)] *)
Definition get_form (env : Env) (req : Request) : M Response :=
  let voteDataInstance := new_voteData env (Some (params_id req)) in
  let filePath := VoteData.filePath voteDataInstance in
  c <- Fs.readFileSync filePath ;;
  form <- JSON_parse c ;;
  p <- VoteData.data voteDataInstance ;;
  n <- VoteData.name voteDataInstance ;;
  ret (Render (FormView (params_id req) (poll_data p) n (is_voted_flag req))).

(** [res.render('result', {data: voteDataInstance.sortData(),
    name: voteDataInstance.name(), ...})] *)
Definition render_result (voteDataInstance : voteData) : M Response :=
  d <- VoteData.sortData voteDataInstance ;;
  n <- VoteData.name voteDataInstance ;;
  ret (Render (ResultView d n)).

(** [app.post('/result/:id/', parseForm, csrfProtection, ...)] *)
Definition post_result (env : Env) (req : Request) : M Response :=
  let voteDataInstance := new_voteData env (Some (params_id req)) in
  if VoteData.isVoted voteDataInstance req then
    ret (Redirect (baseUrl req +:+ "/form/" +:+ vd_id voteDataInstance +:+ "/?is_voted=1"))
  else
    VoteData.setUniquenessCookie voteDataInstance ;;
    VoteData.vote voteDataInstance (body req !! "key") ;;
    render_result voteDataInstance.

(** [app.get('/result/:id/', ...)] *)
Definition get_result (env : Env) (req : Request) : M Response :=
  let voteDataInstance := new_voteData env (Some (params_id req)) in
  render_result voteDataInstance.

(** The addresses of the two views of a poll, as the routes
    [/form/:id/] and [/result/:id/] of [app.js] spell them. *)
Definition form_view_url (req : Request) (id : string) : string :=
  baseUrl req +:+ "/form/" +:+ id +:+ "/".

Definition result_view_url (req : Request) (id : string) : string :=
  baseUrl req +:+ "/result/" +:+ id +:+ "/".

End Handlers.

(** ** Validation and sample collaborators *)

(** White space as [String.prototype.trim] sees it, among the code
    units below 256. *)
Definition is_space (c : ascii) : bool :=
  let n := Ascii.nat_of_ascii c in
  ((9 <=? n) && (n <=? 13) || (n =? 32) || (n =? 160))%nat.

Fixpoint all_space (s : string) : bool :=
  match s with
  | "" => true
  | String c rest => is_space c && all_space rest
  end.

Fixpoint trim_start (s : string) : string :=
  match s with
  | "" => ""
  | String c rest => if is_space c then trim_start rest else s
  end.

Fixpoint trim_end (s : string) : string :=
  match s with
  | "" => ""
  | String c rest => if all_space s then "" else String c (trim_end rest)
  end.

Definition trim (s : string) : string := trim_end (trim_start s).

(** The option list after normalisation as section 4.2 words it
    (dedupe, trim) with the blank lines removed. *)
Definition trimmed_options (text : string) : list string :=
  keep_first [] (List.filter (fun l => negb (String.eqb l ""))
                   (trim <$> Js.split_newline text)).

Definition submitted_options (sanitizedData : SanitizedData) : list string :=
  match sd_data sanitizedData with
  | Some text => trimmed_options text
  | None => []
  end.

(** Modelled from the spec: [libs/shemes] (the schema
    [createVoteData]) and [libs/create_error_message.js] are not in
    [src/]; section 4.2: create fails with ValidationError if options
    are empty after normalization or required fields are missing.  One
    message is collected per field in error, under the key of the
    field. *)
Definition schema_messages (sanitizedData : SanitizedData) : list string :=
  (match sd_name sanitizedData with
   | Some _ => []
   | None => ["name"]
   end) ++
  (match submitted_options sanitizedData with
   | [] => ["data"]
   | _ :: _ => []
   end).

(** The collaborators [L] with the validation of the specification. *)
Definition with_spec_schema (L : Libs) : Libs :=
  mkLibs sanitizeData schema_messages path_of_id dirname cookie_of_id.

(** Sample collaborators: a sanitizer that passes the two form fields
    on, one file per poll in the directory [data], a cookie named
    after the poll. *)
Definition sample_libs : Libs :=
  mkLibs (fun req => mkSanitized (body req !! "name") (body req !! "data"))
    schema_messages
    (fun id => "data/" +:+ id +:+ ".json")
    (fun _ => "data")
    (fun id => "voted_" +:+ id).

Definition sample_env : Env := mkEnv 1700000000000 "p1".

Definition sample_session : Session := mkSession None None.

Definition sample_create : Request :=
  mkRequest "" "" (<["name" := "Lunch"]> (<["data" := sample_options]> ∅)) ∅ None.

(** A submission whose options are two empty lines. *)
Definition sample_blank : Request :=
  mkRequest "" ""
    (<["name" := "Lunch"]> (<["data" := String Js.LF (String Js.LF "")]> ∅)) ∅ None.

(** A submission without any field. *)
Definition sample_empty : Request := mkRequest "" "" ∅ ∅ None.

(** A vote for [A] in the poll [p1] from a browser that carries the
    cookie of that poll. *)
Definition sample_vote : Request :=
  mkRequest "" "p1" (<["key" := "A"]> ∅) (<["voted_p1" := "1"]> ∅) None.

Definition sample_poll : Poll :=
  mkPoll (Some "Lunch") ["A"; "B"; "C"] 1700000000000
    (<["A" := 2%nat]> (<["B" := 5%nat]> (<["C" := 2%nat]> ∅))).

(** Collaborators whose validation lets every submission through,
    otherwise as the sample ones. *)
Definition lenient_libs : Libs :=
  mkLibs (@sanitizeData sample_libs) (fun _ => [])
    (@path_of_id sample_libs) (@dirname sample_libs) (@cookie_of_id sample_libs).

(** A vote for [A] in the poll [p1] from a browser without cookie, and
    the request the same browser sends next. *)
Definition sample_first_vote : Request :=
  mkRequest "" "p1" (<["key" := "A"]> ∅) ∅ None.

Definition sample_second_vote : Request :=
  mkRequest "" "p1" (<["key" := "B"]> ∅) (<["voted_p1" := "1"]> ∅) None.

(** The text with every line feed turned into the pair carriage
    return, line feed, as a browser submits the lines of a form field. *)
Fixpoint to_crlf (text : string) : string :=
  match text with
  | "" => ""
  | String c rest =>
      if Js.is_lf c then String Js.CR (String Js.LF (to_crlf rest))
      else String c (to_crlf rest)
  end.

(** ** The options in the words of the specification *)

(** A line that ends at a line feed goes without the carriage return
    that stands right before that line feed. *)
Fixpoint drop_final_cr (line : string) : string :=
  match line with
  | "" => ""
  | String c rest =>
      match rest with
      | "" => if Ascii.eqb c "013"%char then "" else line
      | String _ _ => String c (drop_final_cr rest)
      end
  end.

(** The lines of a text, read unit by unit from the left: a line ends
    at a line feed (unit 10), with or without a carriage return (unit
    13) before it, or at the end of the text.  [current] is the line
    read so far. *)
Fixpoint lines_from (current text : string) : list string :=
  match text with
  | "" => [current]
  | String c rest =>
      if Ascii.eqb c "010"%char then drop_final_cr current :: lines_from "" rest
      else lines_from (current +:+ String c "") rest
  end.

Definition text_lines (text : string) : list string := lines_from "" text.

(** The options of a text as the claim words them: its lines, the
    blank ones (empty, or white space only) removed, each option kept
    at its first occurrence. *)
Definition claimed_options (text : string) : list string :=
  keep_first [] (List.filter (fun l => negb (all_space l)) (text_lines text)).

(** The same with the empty lines removed only. *)
Definition kept_options (text : string) : list string :=
  keep_first [] (List.filter (fun l => negb (String.eqb l "")) (text_lines text)).

(** A submission as a browser sends it, the lines ended by carriage
    return and line feed: the options A and B with a line holding one
    space between them. *)
Definition spaced_options : string :=
  (String "A" (String "013" (String "010" (String " " (String "013" (String "010"
     (String "B" "")))))))%char.

Definition sample_spaced : Request :=
  mkRequest "" "" (<["name" := "Lunch"]> (<["data" := spaced_options]> ∅)) ∅ None.

(** ** The invariant of a poll and the operations on it *)

Definition poll_inv (p : Poll) : Prop :=
  NoDup (poll_data p) ∧ ∀ k, is_Some (poll_votes p !! k) → k ∈ poll_data p.

(** The operations that produce a poll document: create writes a new
    one, a vote rewrites an existing one. *)
Inductive poll_op : option Poll -> Poll -> Prop :=
| op_create (sanitizedData : SanitizedData) (text : string) (t : Z) :
    poll_op None (created_poll sanitizedData text t)
| op_vote (p : Poll) (key : option string) :
    poll_op (Some p) (from_option (vote p) p key).

(** * Properties *)

(** ** Normalisation *)

Section Normalisation.

Lemma indexOf_from_notin (pre post : list string) (elem : string) (i : Z) :
  elem ∉ pre →
  Js.indexOf_from i (pre ++ elem :: post) elem = i + Z.of_nat (length pre).
Proof.
  revert i. induction pre as [|x pre IH]; intros i Hnot; simpl.
  - rewrite String.eqb_refl. lia.
  - apply not_elem_of_cons in Hnot as [Hne Hnot].
    destruct (String.eqb_spec x elem) as [->|_]; [done|].
    rewrite IH by done. lia.
Qed.

Lemma indexOf_from_in (pre rest : list string) (elem : string) (i : Z) :
  elem ∈ pre →
  i <= Js.indexOf_from i (pre ++ rest) elem < i + Z.of_nat (length pre).
Proof.
  revert i. induction pre as [|x pre IH]; intros i Hin.
  - by apply elem_of_nil in Hin.
  - simpl. destruct (String.eqb_spec x elem) as [->|Hne]; [lia|].
    apply elem_of_cons in Hin as [->|Hin]; [done|].
    specialize (IH (i + 1) Hin). lia.
Qed.

Lemma first_index_test (pre post : list string) (elem : string) :
  (Js.indexOf (pre ++ elem :: post) elem =? Z.of_nat (length pre))
  = negb (bool_decide (elem ∈ pre)).
Proof.
  unfold Js.indexOf. case_bool_decide as Hin; simpl.
  - pose proof (indexOf_from_in pre (elem :: post) elem 0 Hin). lia.
  - rewrite indexOf_from_notin by done. lia.
Qed.

Lemma keep_first_same_seen (seen1 seen2 options : list string) :
  (∀ o, o ∈ seen1 ↔ o ∈ seen2) →
  keep_first seen1 options = keep_first seen2 options.
Proof.
  revert seen1 seen2. induction options as [|x rest IH]; intros s1 s2 Hsame; [done|].
  simpl. rewrite (bool_decide_ext _ _ (Hsame x)).
  case_bool_decide; [by apply IH|].
  f_equal. apply IH. intros o. rewrite !elem_of_app. naive_solver.
Qed.

Lemma filter_from_keep_first (pre todo : list string) :
  Js.filter_from (fun elem index self => Js.indexOf self elem =? index)
    (pre ++ todo) (Z.of_nat (length pre)) todo
  = keep_first pre todo.
Proof.
  revert pre. induction todo as [|o rest IH]; intros pre; [done|].
  simpl. rewrite first_index_test.
  specialize (IH (pre ++ [o])%list).
  rewrite <- app_assoc, length_app, Nat2Z.inj_add in IH.
  change (Z.of_nat (length [o])) with 1 in IH. simpl in IH.
  rewrite IH. case_bool_decide as Hin; simpl; [|done].
  apply keep_first_same_seen. intros x. rewrite elem_of_app, list_elem_of_singleton.
  naive_solver.
Qed.

Lemma truthy_nonempty (v : string) : Js.truthy v = negb (String.eqb v "").
Proof. by destruct v. Qed.

Lemma normalize_data_distinct (text : string) :
  normalize_data text = distinct_options text.
Proof.
  unfold normalize_data, distinct_options, nonblank_lines, Js.filter_indexed.
  erewrite (List.filter_ext _ _ truthy_nonempty).
  apply (filter_from_keep_first []).
Qed.

Lemma keep_first_elem (seen options : list string) (o : string) :
  o ∈ keep_first seen options ↔ o ∈ options ∧ o ∉ seen.
Proof.
  revert seen. induction options as [|x rest IH]; intros seen; simpl.
  - set_solver.
  - case_bool_decide as Hx.
    + rewrite IH, elem_of_cons. naive_solver.
    + rewrite !elem_of_cons, IH, elem_of_app, list_elem_of_singleton.
      destruct (decide (o = x)); naive_solver.
Qed.

Lemma keep_first_NoDup (seen options : list string) :
  NoDup (keep_first seen options).
Proof.
  revert seen. induction options as [|x rest IH]; intros seen; simpl.
  - constructor.
  - case_bool_decide; [done|]. constructor; [|done].
    rewrite keep_first_elem. set_solver.
Qed.

Lemma keep_first_sublist (seen options : list string) :
  sublist (keep_first seen options) options.
Proof.
  revert seen. induction options as [|x rest IH]; intros seen; simpl.
  - constructor.
  - case_bool_decide; [by apply sublist_cons|by apply sublist_skip].
Qed.

Lemma nonblank_lines_elem (text o : string) :
  o ∈ nonblank_lines text ↔ o ∈ Js.split_newline text ∧ o ≠ "".
Proof.
  unfold nonblank_lines. rewrite !list_elem_of_In, List.filter_In.
  destruct (String.eqb_spec o ""); naive_solver.
Qed.

Lemma nonblank_lines_sublist (text : string) :
  sublist (nonblank_lines text) (Js.split_newline text).
Proof.
  unfold nonblank_lines. induction (Js.split_newline text) as [|l ls IH]; simpl.
  - constructor.
  - destruct (negb _); [by apply sublist_skip|by apply sublist_cons].
Qed.

End Normalisation.

(** ** Creating a poll *)

Section Create.
Context `{Libs}.

Lemma string_app_assoc (a b c : string) : (a +:+ b) +:+ c = a +:+ b +:+ c.
Proof.
  induction a as [|x a IH]; [done|].
  change (String x ((a +:+ b) +:+ c) = String x (a +:+ b +:+ c)). by f_equal.
Qed.

(** The handler on a submission that passes validation and whose
    [data] is text: every step, in order. *)
Lemma post_create_valid (env : Env) (req : Request) fs ds s (text : string) :
  getMessages (sanitizeData req) = [] →
  sd_data (sanitizeData req) = Some text →
  post_create env req (enter fs ds s) =
    (Ok (Redirect (form_view_url req (fresh_id env))),
     mkWorld
       (<[path_of_id (fresh_id env) :=
            Json (created_poll (sanitizeData req) text (now env))]> fs)
       ({[dirname (path_of_id (fresh_id env))]} ∪ ds)
       None ∅
       [SessionNull; MkdirSync (dirname (path_of_id (fresh_id env)));
        WriteFileSync (path_of_id (fresh_id env))]).
Proof.
  intros Hmsgs Htext. unfold post_create, data_text.
  rewrite Hmsgs, Htext. reflexivity.
Qed.

(** The handler on a submission that passes validation but whose
    [data] holds no string: [split] throws once the session is reset
    and the directory made; no file is written. *)
Lemma post_create_no_text (env : Env) (req : Request) fs ds s :
  getMessages (sanitizeData req) = [] →
  sd_data (sanitizeData req) = None →
  post_create env req (enter fs ds s) =
    (Throw TypeError,
     mkWorld fs ({[dirname (path_of_id (fresh_id env))]} ∪ ds) None ∅
       [SessionNull; MkdirSync (dirname (path_of_id (fresh_id env)))]).
Proof.
  intros Hmsgs Htext. unfold post_create, data_text.
  rewrite Hmsgs, Htext. reflexivity.
Qed.

(** The handler on a submission with at least one message. *)
Lemma post_create_invalid (env : Env) (req : Request) fs ds s :
  getMessages (sanitizeData req) ≠ [] →
  post_create env req (enter fs ds s) =
    (Ok (Redirect (baseUrl req +:+ "/#container")),
     mkWorld fs ds
       (Some (mkSession (Some (getMessages (sanitizeData req))) (Some (body req))))
       ∅ [SessionAssign]).
Proof.
  intros Hmsgs. unfold post_create.
  destruct (getMessages (sanitizeData req)) as [|m ms]; [done|]. reflexivity.
Qed.

(** C9. For every create request that passes validation the session
    is set to null before the poll file is written: the reset is the
    first effect of the handler, every write comes after it, and the
    session ends null whatever messages and form body an earlier
    failed submission left in it.  When [data] is text the poll file is
    written. *)
Theorem post_create_resets_session_first
    (env : Env) (req : Request) fs ds s :
  getMessages (sanitizeData req) = [] →
  let w' := (post_create env req (enter fs ds s)).2 in
  session w' = None
  ∧ (∃ later, trace w' = SessionNull :: later)
  ∧ (∀ pre path post,
       trace w' = (pre ++ WriteFileSync path :: post)%list → SessionNull ∈ pre)
  ∧ (is_Some (sd_data (sanitizeData req)) →
       WriteFileSync (path_of_id (fresh_id env)) ∈ trace w').
Proof.
  intros Hmsgs w'. subst w'.
  destruct (sd_data (sanitizeData req)) as [text|] eqn:Htext.
  - rewrite (post_create_valid _ _ _ _ _ text) by done. simpl.
    split; [done|]. split; [by eexists|]. split; [|intros _; set_solver].
    intros [|c pre] path post Heq; simplify_eq/=. set_solver.
  - rewrite post_create_no_text by done. simpl.
    split; [done|]. split; [by eexists|]. split; [|by intros [? ?]].
    intros [|c pre] path post Heq; simplify_eq/=. set_solver.
Qed.

(** C10. For every create request whose validation yields at least
    one message, whichever field it is about, the handler redirects
    back and touches the file system not at all: the files and the
    directories are as before, the only effect is the assignment to the
    session, and the session holds the messages and the submitted
    body. *)
Theorem post_create_invalid_redirects_back
    (env : Env) (req : Request) fs ds s :
  getMessages (sanitizeData req) ≠ [] →
  let r := post_create env req (enter fs ds s) in
  r.1 = Ok (Redirect (baseUrl req +:+ "/#container"))
  ∧ files r.2 = fs
  ∧ dirs r.2 = ds
  ∧ trace r.2 = [SessionAssign]
  ∧ session r.2 =
      Some (mkSession (Some (getMessages (sanitizeData req))) (Some (body req))).
Proof.
  intros Hmsgs r. subst r. by rewrite post_create_invalid.
Qed.

End Create.

(** ** The lines of the handler are the lines of the text *)

Section Lines.

Lemma split_newline_cons (c : ascii) (rest : string) :
  Js.split_newline (String c rest) =
    if Js.is_lf c then "" :: Js.split_newline rest
    else
      match rest with
      | String c2 rest2 =>
          if Js.is_cr c && Js.is_lf c2 then "" :: Js.split_newline rest2
          else Js.push_front c (Js.split_newline rest)
      | "" => Js.push_front c (Js.split_newline rest)
      end.
Proof. reflexivity. Qed.

Lemma is_lf_true (c : ascii) : Js.is_lf c = true ↔ c = Js.LF.
Proof. apply Ascii.eqb_eq. Qed.

Lemma is_lf_false (c : ascii) : Js.is_lf c = false ↔ c ≠ Js.LF.
Proof. apply Ascii.eqb_neq. Qed.

Lemma append_cons (c : ascii) (s t : string) : String c s +:+ t = String c (s +:+ t).
Proof. reflexivity. Qed.

Lemma append_empty_r (s : string) : s +:+ "" = s.
Proof. induction s as [|c s IH]; [done|]. by rewrite append_cons, IH. Qed.

Lemma chars_append (s t : string) :
  list_ascii_of_string (s +:+ t)
  = (list_ascii_of_string s ++ list_ascii_of_string t)%list.
Proof. induction s as [|c s IH]; [done|]. rewrite append_cons. simpl. by rewrite IH. Qed.

Lemma no_lf_cons (c : ascii) (rest : string) :
  Js.LF ∉ list_ascii_of_string (String c rest) →
  Js.is_lf c = false ∧ Js.LF ∉ list_ascii_of_string rest.
Proof.
  simpl. intros [Hne Hrest]%not_elem_of_cons. split; [|done].
  by apply is_lf_false.
Qed.

(** A text without line feed is one piece. *)
Lemma split_newline_lf_free (s : string) :
  Js.LF ∉ list_ascii_of_string s → Js.split_newline s = [s].
Proof.
  induction s as [|c rest IH]; [done|].
  intros [Hc Hrest]%no_lf_cons. rewrite split_newline_cons, Hc.
  destruct rest as [|c2 rest2]; [done|].
  destruct (no_lf_cons _ _ Hrest) as [Hc2 _].
  rewrite Hc2, andb_false_r, IH by done. reflexivity.
Qed.

(** The first piece of a text ends at its first line feed, without the
    carriage return right before it. *)
Lemma split_newline_before_lf (current rest : string) :
  Js.LF ∉ list_ascii_of_string current →
  Js.split_newline (current +:+ String Js.LF rest)
  = drop_final_cr current :: Js.split_newline rest.
Proof.
  induction current as [|c current IH]; [done|].
  intros [Hc Hcurrent]%no_lf_cons.
  rewrite append_cons, split_newline_cons, Hc.
  destruct current as [|c2 current2].
  - change ("" +:+ String Js.LF rest) with (String Js.LF rest). cbv beta iota.
    change (Js.is_lf Js.LF) with true. rewrite andb_true_r.
    change (drop_final_cr (String c "")) with (if Js.is_cr c then "" else String c "").
    destruct (Js.is_cr c); [done|].
    rewrite split_newline_cons. reflexivity.
  - rewrite append_cons. destruct (no_lf_cons _ _ Hcurrent) as [Hc2 _].
    rewrite Hc2, andb_false_r. rewrite <- append_cons, IH by done. reflexivity.
Qed.

Lemma lines_from_split_newline (text current : string) :
  Js.LF ∉ list_ascii_of_string current →
  lines_from current text = Js.split_newline (current +:+ text).
Proof.
  revert current. induction text as [|c rest IH]; intros current Hcurrent.
  - rewrite append_empty_r. simpl. by rewrite split_newline_lf_free.
  - simpl. change (Ascii.eqb c "010"%char) with (Js.is_lf c).
    destruct (Js.is_lf c) eqn:Hc.
    + apply is_lf_true in Hc as ->.
      rewrite split_newline_before_lf by done. f_equal.
      apply (IH ""), not_elem_of_nil.
    + rewrite IH.
      * rewrite string_app_assoc. reflexivity.
      * rewrite chars_append. simpl. apply not_elem_of_app. split; [done|].
        apply not_elem_of_cons. split; [by apply is_lf_false in Hc|apply not_elem_of_nil].
Qed.

Lemma text_lines_split_newline (text : string) :
  text_lines text = Js.split_newline text.
Proof. apply (lines_from_split_newline text ""), not_elem_of_nil. Qed.

Lemma normalize_data_kept_options (text : string) :
  normalize_data text = kept_options text.
Proof.
  rewrite normalize_data_distinct. unfold distinct_options, nonblank_lines, kept_options.
  by rewrite text_lines_split_newline.
Qed.

End Lines.

(** ** The options that are stored *)

Section StoredOptions.
Context `{Libs}.

Lemma kept_options_elem (text o : string) :
  o ∈ kept_options text ↔ o ∈ text_lines text ∧ o ≠ "".
Proof.
  unfold kept_options. rewrite keep_first_elem.
  rewrite !list_elem_of_In, List.filter_In.
  pose proof (not_elem_of_nil o).
  destruct (String.eqb_spec o ""); naive_solver.
Qed.

Lemma kept_options_sublist (text : string) :
  sublist (kept_options text) (text_lines text).
Proof.
  unfold kept_options. etrans; [apply keep_first_sublist|].
  induction (text_lines text) as [|l ls IH]; simpl.
  - constructor.
  - destruct (negb _); [by apply sublist_skip|by apply sublist_cons].
Qed.

(** X19. For every valid create submission the handler stores, at the
    path of the new identifier, a document whose [data] is the list of
    the lines of the submitted text, a line ending at a line feed with
    or without a carriage return before it, with the empty lines
    removed and every option kept at its first occurrence only: the
    options are pairwise distinct, they are exactly the non-empty
    lines, compared as they stand, and they keep the order of the
    text. *)
Theorem post_create_stores_distinct_options
    (env : Env) (req : Request) fs ds s (text : string) :
  getMessages (sanitizeData req) = [] →
  sd_data (sanitizeData req) = Some text →
  ∃ w' p,
    post_create env req (enter fs ds s)
      = (Ok (Redirect (form_view_url req (fresh_id env))), w')
    ∧ files w' !! path_of_id (fresh_id env) = Some (Json p)
    ∧ poll_data p = kept_options text
    ∧ NoDup (poll_data p)
    ∧ (∀ o, o ∈ poll_data p ↔ o ∈ text_lines text ∧ o ≠ "")
    ∧ sublist (poll_data p) (text_lines text).
Proof.
  intros Hmsgs Htext. do 2 eexists.
  split; [by apply post_create_valid|].
  split; [simpl; apply lookup_insert_eq|]. simpl.
  rewrite normalize_data_kept_options.
  split; [done|]. split; [apply keep_first_NoDup|].
  split; [apply kept_options_elem|apply kept_options_sublist].
Qed.

(** X20. On a text in which no line holds white space only, the
    options the create handler keeps are the options as the claim
    words them: the lines of the text with the blank ones removed, each
    kept at its first occurrence. *)
Theorem normalize_data_claimed_options (text : string) :
  (∀ l, l ∈ text_lines text → all_space l = true → l = "") →
  normalize_data text = claimed_options text.
Proof.
  intros Hplain. rewrite normalize_data_kept_options.
  unfold kept_options, claimed_options. f_equal.
  apply List.filter_ext_in. intros l Hl%list_elem_of_In.
  destruct (String.eqb_spec l "") as [->|Hne]; [done|].
  destruct (all_space l) eqn:Hspace; [|done].
  by destruct Hne; apply Hplain.
Qed.

End StoredOptions.

(** C3. The claim fails on a submission with a line of white space:
    for the valid submission of the options A and B with a line
    holding one space between them, the lines ended by carriage return
    and line feed, the handler stores the blank line as an option of
    its own, where the claim has the blank lines removed and [A; B]
    stored. *)
Theorem post_create_keeps_blank_line :
  @getMessages sample_libs (@sanitizeData sample_libs sample_spaced) = []
  ∧ ∃ w' p,
      post_create (H := sample_libs) sample_env sample_spaced (enter ∅ ∅ sample_session)
        = (Ok (Redirect "/form/p1/"), w')
      ∧ files w' !! "data/p1.json" = Some (Json p)
      ∧ poll_data p = ["A"; " "; "B"]
      ∧ all_space " " = true
      ∧ claimed_options spaced_options = ["A"; "B"]
      ∧ poll_data p ≠ claimed_options spaced_options.
Proof.
  split; [reflexivity|]. do 2 eexists.
  split; [by apply (post_create_valid (H := sample_libs))|].
  split; [simpl; apply lookup_insert_eq|].
  split; [reflexivity|]. split; [reflexivity|]. split; [reflexivity|].
  by vm_compute.
Qed.

Lemma post_create_stores_distinct_options_sample :
  ∃ w' p,
    post_create (H := sample_libs) sample_env sample_create (enter ∅ ∅ sample_session)
      = (Ok (Redirect "/form/p1/"), w')
    ∧ files w' !! "data/p1.json" = Some (Json p)
    ∧ poll_data p = ["A"; "B"].
Proof.
  destruct (post_create_stores_distinct_options (H := sample_libs)
              sample_env sample_create ∅ ∅ sample_session sample_options
              eq_refl eq_refl) as (w' & p & Hrun & Hfile & Hdata & _).
  exists w', p. split; [exact Hrun|]. split; [exact Hfile|]. exact Hdata.
Defined.

Lemma normalize_data_claimed_options_sample :
  normalize_data sample_options = ["A"; "B"].
Proof.
  apply (normalize_data_claimed_options sample_options).
  intros l Hin Hspace. change (l ∈ ["A"; "A"; "B"; ""; ""]) in Hin.
  repeat (apply elem_of_cons in Hin as [->|Hin]; [done|]).
  by apply elem_of_nil in Hin.
Defined.

(** ** Validation of the options *)

Section Validation.

Lemma keep_first_nil (options : list string) :
  keep_first [] options = [] → options = [].
Proof.
  destruct options as [|o rest]; [done|].
  simpl. by intros ?.
Qed.

Lemma trim_empty : trim "" = "".
Proof. reflexivity. Qed.

(** A text without options for the handler (no trimming there) has
    none after trimming either. *)
Lemma normalize_nil_trimmed_nil (text : string) :
  normalize_data text = [] → trimmed_options text = [].
Proof.
  rewrite normalize_data_distinct. unfold distinct_options, nonblank_lines, trimmed_options.
  intros Hnil%keep_first_nil.
  induction (Js.split_newline text) as [|l ls IH]; [done|].
  simpl in Hnil. destruct (String.eqb_spec l "") as [->|Hne]; simpl in Hnil; [|done].
  rewrite fmap_cons, trim_empty. simpl. by apply IH.
Qed.

Lemma schema_messages_no_options (sanitizedData : SanitizedData) :
  submitted_options sanitizedData = [] →
  "data" ∈ schema_messages sanitizedData.
Proof.
  intros Hnil. unfold schema_messages. rewrite Hnil.
  apply elem_of_app. right. by apply list_elem_of_singleton.
Qed.

(** C2. With the validation of the specification, every create
    request whose option list is empty after normalisation is refused
    as a validation error: the handler redirects back with a message
    about [data] in the session, creates no directory and writes no
    file. *)
Theorem post_create_rejects_empty_options
    (L : Libs) (env : Env) (req : Request) fs ds s :
  submitted_options (sanitizeData req) = [] →
  let r := post_create (H := with_spec_schema L) env req (enter fs ds s) in
  r.1 = Ok (Redirect (baseUrl req +:+ "/#container"))
  ∧ files r.2 = fs
  ∧ dirs r.2 = ds
  ∧ (∀ path, WriteFileSync path ∉ trace r.2)
  ∧ ∃ msgs, session r.2 = Some (mkSession (Some msgs) (Some (body req)))
            ∧ "data" ∈ msgs.
Proof.
  intros Hnil r.
  pose proof (schema_messages_no_options _ Hnil) as Hin.
  assert (getMessages (Libs := with_spec_schema L)
            (sanitizeData (Libs := with_spec_schema L) req) ≠ []) as Hmsgs.
  { simpl. intros Heq. rewrite Heq in Hin. by apply elem_of_nil in Hin. }
  subst r. rewrite (post_create_invalid (H := with_spec_schema L)) by done.
  repeat split; try done.
  - intros path [=]%list_elem_of_singleton.
  - eexists. split; [reflexivity|exact Hin].
Qed.

End Validation.

(** ** Voting and the two views *)

Section Result.
Context `{Libs}.

Lemma isVoted_cookie (env : Env) (req : Request) :
  VoteData.isVoted (new_voteData env (Some (params_id req))) req = true
  ↔ is_Some (cookies req !! cookie_of_id (params_id req)).
Proof. unfold VoteData.isVoted. simpl. apply bool_decide_eq_true. Qed.

(** The handler on a request that carries the cookie of the poll. *)
Lemma post_result_voted (env : Env) (req : Request) (w : World) :
  is_Some (cookies req !! cookie_of_id (params_id req)) →
  post_result env req w =
    (Ok (Redirect (baseUrl req +:+ "/form/" +:+ params_id req +:+ "/?is_voted=1")), w).
Proof.
  intros Hc%(isVoted_cookie env). unfold post_result. by rewrite Hc.
Qed.

(** C1, amended. For every vote request that carries the cookie of
    the poll, the handler refuses the vote and redirects to the voting
    form of the poll, [/form/:id/], with [is_voted=1]. *)
Theorem post_result_voted_redirects_to_form
    (env : Env) (req : Request) (w : World) :
  is_Some (cookies req !! cookie_of_id (params_id req)) →
  (post_result env req w).1
    = Ok (Redirect (form_view_url req (params_id req) +:+ "?is_voted=1")).
Proof.
  intros Hc. rewrite post_result_voted by done. simpl.
  unfold form_view_url. by rewrite !string_app_assoc.
Qed.

(** C6. For every vote request that carries the cookie of the poll,
    the handler leaves the world as it found it: the files, and so the
    tallies of every poll, are unchanged, and no call was made, neither
    [vote] nor a write. *)
Theorem post_result_voted_changes_nothing
    (env : Env) (req : Request) fs ds s :
  is_Some (cookies req !! cookie_of_id (params_id req)) →
  let w' := (post_result env req (enter fs ds s)).2 in
  files w' = fs
  ∧ trace w' = []
  ∧ (∀ key, Vote key ∉ trace w')
  ∧ (∀ path, WriteFileSync path ∉ trace w')
  ∧ w' = enter fs ds s.
Proof.
  intros Hc w'. subst w'. rewrite post_result_voted by done. simpl.
  repeat split; try done; intros ?; apply not_elem_of_nil.
Qed.

(** C7. For every poll identifier whose path holds no file, the form
    handler fails with NotFound, and so does loading the poll: neither
    returns a poll nor fails another way, and the files stay as they
    are. *)
Theorem get_form_missing_file
    (env : Env) (req : Request) fs ds s :
  fs !! path_of_id (params_id req) = None →
  (get_form env req (enter fs ds s)).1 = Throw NotFound
  ∧ files (get_form env req (enter fs ds s)).2 = fs
  ∧ (VoteData.data (new_voteData env (Some (params_id req))) (enter fs ds s)).1
      = Throw NotFound.
Proof.
  intros Hnone.
  unfold get_form, VoteData.data, VoteData.filePath, bind, Fs.readFileSync.
  simpl. by rewrite Hnone.
Qed.

(** C5. A vote for a key that is not one of the options of the poll
    leaves the poll as it is; a vote for an option sets its tally to
    one more than it was, to 1 when it had no entry, and changes
    nothing else.  The method raises no error on either: on a poll
    file that parses it returns and writes back the poll so voted. *)
Theorem vote_counts_known_options_only (p : Poll) (optionKey : string) :
  (optionKey ∉ poll_data p → vote p optionKey = p)
  ∧ (optionKey ∈ poll_data p →
       poll_votes (vote p optionKey) !! optionKey
         = Some (S (count_of (poll_votes p) optionKey))
       ∧ (poll_votes p !! optionKey = None →
            poll_votes (vote p optionKey) !! optionKey = Some 1%nat)
       ∧ (∀ o, o ≠ optionKey →
            poll_votes (vote p optionKey) !! o = poll_votes p !! o)
       ∧ poll_data (vote p optionKey) = poll_data p
       ∧ poll_name (vote p optionKey) = poll_name p
       ∧ poll_created_at (vote p optionKey) = poll_created_at p)
  ∧ (∀ (this : voteData) (w : World),
       files w !! VoteData.filePath this = Some (Json p) →
       let r := VoteData.vote this (Some optionKey) w in
       r.1 = Ok tt
       ∧ files r.2 = <[VoteData.filePath this := Json (vote p optionKey)]> (files w)).
Proof.
  split; [|split].
  - intros Hnot. unfold vote. by rewrite bool_decide_eq_false_2.
  - intros Hin. unfold vote. rewrite bool_decide_eq_true_2 by done. simpl.
    split; [apply lookup_insert_eq|].
    split; [intros Hnone; rewrite lookup_insert_eq; unfold count_of; by rewrite Hnone|].
    split; [intros o Hne; by apply lookup_insert_ne|done].
  - intros this w Hfile r. subst r.
    unfold VoteData.vote, VoteData.data, bind, Fs.readFileSync, Fs.writeFileSync.
    simpl. by rewrite Hfile.
Qed.

End Result.

(** ** Sorting the tallies *)

Section Sorting.

Lemma insert_by_count_perm (x : string * nat) (sorted : list (string * nat)) :
  insert_by_count x sorted ≡ₚ x :: sorted.
Proof.
  induction sorted as [|y rest IH]; simpl; [done|].
  destruct (x.2 <? y.2)%nat; [|done].
  rewrite IH. apply Permutation_swap.
Qed.

Lemma insert_by_count_sorted (x : string * nat) (sorted : list (string * nat)) :
  StronglySorted count_ge sorted → StronglySorted count_ge (insert_by_count x sorted).
Proof.
  induction 1 as [|y rest Hsorted IH Hall]; simpl.
  - repeat constructor.
  - destruct (Nat.ltb_spec x.2 y.2) as [Hlt|Hge].
    + constructor; [done|].
      rewrite insert_by_count_perm. constructor; [|done].
      unfold count_ge. lia.
    + constructor; [by constructor|].
      constructor; [done|].
      eapply Forall_impl; [exact Hall|]. unfold count_ge. intros z ?. lia.
Qed.

Lemma insert_by_count_stable (c : nat) (x : string * nat) (sorted : list (string * nat)) :
  filter (λ z, z.2 = c) (insert_by_count x sorted)
  = filter (λ z, z.2 = c) (x :: sorted).
Proof.
  induction sorted as [|y rest IH]; simpl; [done|].
  destruct (Nat.ltb_spec x.2 y.2) as [Hlt|Hge]; [|done].
  rewrite (filter_cons _ y (insert_by_count x rest)), IH.
  rewrite !filter_cons. repeat case_decide; try done. lia.
Qed.

Lemma sort_by_count_perm (pairs : list (string * nat)) :
  sort_by_count pairs ≡ₚ pairs.
Proof.
  induction pairs as [|x rest IH]; simpl; [done|].
  by rewrite insert_by_count_perm, IH.
Qed.

Lemma sort_by_count_sorted (pairs : list (string * nat)) :
  StronglySorted count_ge (sort_by_count pairs).
Proof.
  induction pairs as [|x rest IH]; simpl; [constructor|].
  by apply insert_by_count_sorted.
Qed.

Lemma sort_by_count_stable (c : nat) (pairs : list (string * nat)) :
  filter (λ z, z.2 = c) (sort_by_count pairs) = filter (λ z, z.2 = c) pairs.
Proof.
  induction pairs as [|x rest IH]; simpl; [done|].
  by rewrite insert_by_count_stable, !filter_cons, IH.
Qed.

(** C4. For every poll, [sortData] returns the (option, count) pairs
    of the poll, each once, in descending order of count, and the
    pairs with the same count stand in the order their options have in
    [data].  The tallies A:2, B:5, C:2 over the options [A; B; C] give
    [(B,5); (A,2); (C,2)]. *)
Theorem sortData_descending_stable (p : Poll) :
  StronglySorted count_ge (sortData p)
  ∧ sortData p ≡ₚ tallies p
  ∧ (∀ c, filter (λ z, z.2 = c) (sortData p) = filter (λ z, z.2 = c) (tallies p))
  ∧ sortData sample_poll = [("B", 5%nat); ("A", 2%nat); ("C", 2%nat)].
Proof.
  unfold sortData. split; [apply sort_by_count_sorted|].
  split; [apply sort_by_count_perm|].
  split; [intros c; apply sort_by_count_stable|].
  by vm_compute.
Qed.

End Sorting.

(** ** The invariant *)

Section Invariant.

Lemma created_poll_inv (sanitizedData : SanitizedData) (text : string) (t : Z) :
  poll_inv (created_poll sanitizedData text t).
Proof.
  split; simpl.
  - rewrite normalize_data_distinct. apply keep_first_NoDup.
  - intros k [v Hv]. by rewrite lookup_empty in Hv.
Qed.

Lemma vote_inv (p : Poll) (optionKey : string) :
  poll_inv p → poll_inv (vote p optionKey).
Proof.
  intros [Hdistinct Hkeys]. unfold vote. case_bool_decide as Hin; [|done].
  split; simpl; [done|].
  intros k [v Hv]. destruct (decide (optionKey = k)) as [<-|Hne]; [done|].
  rewrite lookup_insert_ne in Hv by done. apply Hkeys. by exists v.
Qed.

(** C8. Every operation on a poll keeps the invariant: the document
    create writes has pairwise distinct options and no tally, and a
    vote on a poll with pairwise distinct options whose tallies are all
    for options of the poll gives such a poll again. *)
Theorem poll_inv_preserved (before : option Poll) (after : Poll) :
  poll_op before after →
  (∀ p, before = Some p → poll_inv p) →
  poll_inv after.
Proof.
  intros Hop Hinv. destruct Hop as [sanitizedData text t|p key].
  - apply created_poll_inv.
  - specialize (Hinv p eq_refl). destruct key as [k|]; simpl; [|done].
    by apply vote_inv.
Qed.

End Invariant.

(** ** The theorems on sample requests *)

Lemma post_create_resets_session_first_sample :
  session (post_create (H := sample_libs) sample_env sample_create
             (enter ∅ ∅ (mkSession (Some ["data"]) (Some ∅)))).2 = None.
Proof.
  exact (proj1 (post_create_resets_session_first (H := sample_libs)
                  sample_env sample_create ∅ ∅ (mkSession (Some ["data"]) (Some ∅))
                  eq_refl)).
Defined.

Lemma post_create_invalid_redirects_back_sample :
  @getMessages sample_libs (@sanitizeData sample_libs sample_empty) = ["name"; "data"]
  ∧ (post_create (H := sample_libs) sample_env sample_empty
       (enter ∅ ∅ sample_session)).1 = Ok (Redirect "/#container").
Proof.
  split; [reflexivity|].
  apply (post_create_invalid_redirects_back (H := sample_libs)
           sample_env sample_empty ∅ ∅ sample_session).
  vm_compute. discriminate.
Defined.

Lemma post_create_rejects_empty_options_sample :
  submitted_options (@sanitizeData sample_libs sample_blank) = []
  ∧ files (post_create (H := with_spec_schema sample_libs) sample_env sample_blank
             (enter ∅ ∅ sample_session)).2 = ∅.
Proof.
  split; [reflexivity|].
  apply (post_create_rejects_empty_options sample_libs
           sample_env sample_blank ∅ ∅ sample_session).
  reflexivity.
Defined.

Lemma post_result_voted_redirects_to_form_sample :
  (post_result (H := sample_libs) sample_env sample_vote (enter ∅ ∅ sample_session)).1
    = Ok (Redirect (form_view_url sample_vote "p1" +:+ "?is_voted=1")).
Proof.
  apply (post_result_voted_redirects_to_form (H := sample_libs)).
  by eexists.
Defined.

(** C1 as the specification words it fails: the redirect of a refused
    vote does not go to the result view [/result/:id/]. *)
Lemma post_result_voted_not_result_view :
  is_Some (cookies sample_vote !! @cookie_of_id sample_libs (params_id sample_vote))
  ∧ (post_result (H := sample_libs) sample_env sample_vote (enter ∅ ∅ sample_session)).1
      = Ok (Redirect "/form/p1/?is_voted=1")
  ∧ (post_result (H := sample_libs) sample_env sample_vote (enter ∅ ∅ sample_session)).1
      ≠ Ok (Redirect (result_view_url sample_vote (params_id sample_vote) +:+ "?is_voted=1")).
Proof.
  split; [by eexists|]. split; [reflexivity|].
  vm_compute. discriminate.
Qed.

Lemma post_result_voted_changes_nothing_sample :
  files (post_result (H := sample_libs) sample_env sample_vote
           (enter (<["data/p1.json" := Json sample_poll]> ∅) ∅ sample_session)).2
    = <["data/p1.json" := Json sample_poll]> ∅.
Proof.
  apply (post_result_voted_changes_nothing (H := sample_libs)).
  by eexists.
Defined.

Lemma get_form_missing_file_sample :
  (get_form (H := sample_libs) sample_env sample_vote (enter ∅ ∅ sample_session)).1
    = Throw NotFound.
Proof.
  apply (get_form_missing_file (H := sample_libs)). reflexivity.
Defined.

Lemma vote_counts_known_options_only_sample :
  vote sample_poll "Z" = sample_poll
  ∧ poll_votes (vote sample_poll "A") !! "A" = Some 3%nat.
Proof.
  destruct (vote_counts_known_options_only (H := sample_libs) sample_poll "Z")
    as (Hunknown & _).
  destruct (vote_counts_known_options_only (H := sample_libs) sample_poll "A")
    as (_ & Hknown & _).
  split.
  - apply Hunknown. intros Hin. by repeat (apply elem_of_cons in Hin as [?|Hin]);
      try by apply elem_of_nil in Hin.
  - apply Hknown. apply list_elem_of_here.
Defined.

Lemma poll_inv_preserved_sample : poll_inv (vote sample_poll "A").
Proof.
  apply (poll_inv_preserved (Some sample_poll) _ (op_vote sample_poll (Some "A"))).
  intros p [= <-]. split.
  - repeat (constructor; [set_solver|]). constructor.
  - intros k [v Hv]. simpl in Hv.
    repeat (apply lookup_insert_Some in Hv as [[<- _]|[_ Hv]]; [set_solver|]).
    by rewrite lookup_empty in Hv.
Defined.

(** * Further properties of the handlers *)

(** ** Splitting into lines *)

Section Splitting.

(** Induction along the scan of [split]: the end of the text, a line
    feed, a carriage return with its line feed, any other unit. *)
Lemma split_newline_ind (P : string → list string → Prop) :
  P "" [""] →
  (∀ c rest, Js.is_lf c = true →
     P rest (Js.split_newline rest) →
     P (String c rest) ("" :: Js.split_newline rest)) →
  (∀ c c2 rest2, Js.is_lf c = false → Js.is_cr c && Js.is_lf c2 = true →
     P rest2 (Js.split_newline rest2) →
     P (String c (String c2 rest2)) ("" :: Js.split_newline rest2)) →
  (∀ c rest, Js.is_lf c = false →
     (∀ c2 rest2, rest = String c2 rest2 → Js.is_cr c && Js.is_lf c2 = false) →
     P rest (Js.split_newline rest) →
     P (String c rest) (Js.push_front c (Js.split_newline rest))) →
  ∀ s, P s (Js.split_newline s).
Proof.
  intros Hnil Hlf Hcrlf Hchar s.
  cut (P s (Js.split_newline s)
       ∧ ∀ c, P (String c s) (Js.split_newline (String c s))); [by intros []|].
  induction s as [|a s [IHs IHc]].
  - split; [exact Hnil|]. intros c. rewrite split_newline_cons.
    destruct (Js.is_lf c) eqn:Hc; [by apply Hlf|].
    by apply (Hchar c "").
  - split; [apply IHc|]. intros c. rewrite split_newline_cons.
    destruct (Js.is_lf c) eqn:Hc; [apply Hlf; [done|apply IHc]|].
    destruct (Js.is_cr c && Js.is_lf a) eqn:Hca; [by apply Hcrlf|].
    apply Hchar; [done| |apply IHc].
    by intros c2 rest2 [= <- <-].
Qed.

Lemma split_newline_nonempty (s : string) : Js.split_newline s ≠ [].
Proof.
  apply (split_newline_ind (λ _ pieces, pieces ≠ [])); try done.
  intros c rest _ _ _. by destruct (Js.split_newline rest).
Qed.

Lemma is_cr_true (c : ascii) : Js.is_cr c = true ↔ c = Js.CR.
Proof. apply Ascii.eqb_eq. Qed.

Lemma push_front_elem (c : ascii) (pieces : list string) (piece : string) :
  pieces ≠ [] →
  piece ∈ Js.push_front c pieces →
  (∃ first, piece = String c first ∧ first ∈ pieces) ∨ piece ∈ pieces.
Proof.
  destruct pieces as [|first rest]; [done|]. intros _. simpl.
  rewrite !elem_of_cons. intros [->|Hin]; [left|right]; eauto.
  exists first. split; [done|]. apply list_elem_of_here.
Qed.

Lemma split_newline_no_lf (s piece : string) :
  piece ∈ Js.split_newline s → Js.LF ∉ list_ascii_of_string piece.
Proof.
  revert piece.
  apply (split_newline_ind
           (λ _ pieces, ∀ piece, piece ∈ pieces → Js.LF ∉ list_ascii_of_string piece)).
  - intros piece ->%list_elem_of_singleton. apply not_elem_of_nil.
  - intros c rest _ IH piece [->|Hin]%elem_of_cons; [apply not_elem_of_nil|by apply IH].
  - intros c c2 rest2 _ _ IH piece [->|Hin]%elem_of_cons;
      [apply not_elem_of_nil|by apply IH].
  - intros c rest Hc%is_lf_false _ IH piece Hin.
    apply push_front_elem in Hin as [(first & -> & Hfirst)|Hin];
      [ |by apply IH|apply split_newline_nonempty].
    simpl. apply not_elem_of_cons. split; [done|by apply IH].
Qed.

Lemma concat_push_front (sep : string) (c : ascii) (pieces : list string) :
  pieces ≠ [] →
  String.concat sep (Js.push_front c pieces) = String c (String.concat sep pieces).
Proof.
  destruct pieces as [|first [|second rest]]; [done|done|]. intros _. reflexivity.
Qed.

Lemma concat_empty_first (sep : string) (pieces : list string) :
  pieces ≠ [] →
  String.concat sep ("" :: pieces) = sep +:+ String.concat sep pieces.
Proof. destruct pieces as [|first rest]; [done|]. intros _. reflexivity. Qed.

End Splitting.

(** ** The options the create handler keeps *)

Section Options.

Lemma indexOf_from_absent (self : list string) (elem : string) (i : Z) :
  elem ∉ self → Js.indexOf_from i self elem = -1.
Proof.
  revert i. induction self as [|x rest IH]; intros i Hnot; [done|].
  apply not_elem_of_cons in Hnot as [Hne Hnot]. simpl.
  destruct (String.eqb_spec x elem) as [->|_]; [done|]. by apply IH.
Qed.

(** X1. [indexOf] answers [-1] exactly for an element the array does
    not hold; for one it holds, it answers the first position that
    holds it, a position within the array. *)
Theorem indexOf_first_position (self : list string) (elem : string) :
  (Js.indexOf self elem = -1 ↔ elem ∉ self)
  ∧ (elem ∈ self →
       ∃ i : nat, Js.indexOf self elem = Z.of_nat i
                  ∧ self !! i = Some elem
                  ∧ ∀ j : nat, (j < i)%nat → self !! j ≠ Some elem).
Proof.
  assert (elem ∈ self →
          ∃ i : nat, Js.indexOf self elem = Z.of_nat i
                     ∧ self !! i = Some elem
                     ∧ ∀ j : nat, (j < i)%nat → self !! j ≠ Some elem) as Hfound.
  { intros (pre & post & -> & Hnot)%list_elem_of_split_l.
    exists (length pre). unfold Js.indexOf.
    rewrite indexOf_from_notin by done.
    split; [lia|]. split; [by apply list_lookup_middle|].
    intros j Hj Hlook. rewrite lookup_app_l in Hlook by done.
    by apply list_elem_of_lookup_2 in Hlook. }
  split; [|exact Hfound]. split.
  - intros Hminus Hin. destruct (Hfound Hin) as (i & Hi & _). lia.
  - apply indexOf_from_absent.
Qed.

Lemma keep_first_distinct (seen options : list string) :
  NoDup options → (∀ o, o ∈ options → o ∉ seen) →
  keep_first seen options = options.
Proof.
  revert seen. induction options as [|o rest IH]; intros seen Hdistinct Hnew; [done|].
  apply NoDup_cons in Hdistinct as [Hfresh Hdistinct]. simpl.
  rewrite bool_decide_eq_false_2 by (apply Hnew, list_elem_of_here).
  f_equal. apply IH; [done|]. intros x Hx.
  rewrite elem_of_app, list_elem_of_singleton. intros [Hseen| ->]; [|done].
  apply (Hnew x); [by apply list_elem_of_further|done].
Qed.

Lemma filter_indexed_keep_first (self : list string) :
  Js.filter_indexed (λ elem index self, Js.indexOf self elem =? index) self
  = keep_first [] self.
Proof. apply (filter_from_keep_first []). Qed.

(** X2. The uniqueness filter of the create handler,
    [filter((elem, index, self) => self.indexOf(elem) === index)],
    leaves an array unchanged exactly when its elements are pairwise
    distinct, and filtering a second time changes nothing. *)
Theorem unique_filter_fixed_point (self : list string) :
  let unique := Js.filter_indexed (λ elem index self, Js.indexOf self elem =? index) in
  (unique self = self ↔ NoDup self)
  ∧ unique (unique self) = unique self.
Proof.
  intros unique. subst unique. split.
  - rewrite filter_indexed_keep_first. split.
    + intros <-. apply keep_first_NoDup.
    + intros Hdistinct. apply keep_first_distinct; [done|].
      intros o _. apply not_elem_of_nil.
  - rewrite !filter_indexed_keep_first.
    apply keep_first_distinct; [apply keep_first_NoDup|].
    intros o _. apply not_elem_of_nil.
Qed.

(** X3. No option the create handler keeps holds a line feed, and
    none is empty: every option is one non-empty line of the text. *)
Theorem normalize_data_single_lines (text o : string) :
  o ∈ normalize_data text →
  o ≠ "" ∧ (Js.LF ∉ list_ascii_of_string o) ∧ o ∈ Js.split_newline text.
Proof.
  rewrite normalize_data_distinct. unfold distinct_options.
  rewrite keep_first_elem, nonblank_lines_elem. intros [[Hin Hne] _].
  split; [done|]. split; [|done]. by apply (split_newline_no_lf text).
Qed.

(** X4. On a text without carriage return, [split] loses nothing but
    the line feeds: joining the pieces with line feeds gives the text
    back. *)
Theorem split_newline_join (text : string) :
  Js.CR ∉ list_ascii_of_string text →
  String.concat (String Js.LF "") (Js.split_newline text) = text.
Proof.
  pattern text, (Js.split_newline text). apply split_newline_ind; clear text.
  - done.
  - intros c rest ->%is_lf_true IH Hcr.
    rewrite concat_empty_first by apply split_newline_nonempty.
    simpl in Hcr. apply not_elem_of_cons in Hcr as [_ Hcr].
    by rewrite IH.
  - intros c c2 rest2 _ [Hc%is_cr_true _]%andb_true_iff _ Hcr.
    simpl in Hcr. apply not_elem_of_cons in Hcr as [Hcr _]. done.
  - intros c rest _ _ IH Hcr.
    rewrite concat_push_front by apply split_newline_nonempty.
    simpl in Hcr. apply not_elem_of_cons in Hcr as [_ Hcr].
    by rewrite IH.
Qed.

(** The create handler keeps no option exactly when every line of the
    text is empty, that is when the text is made of line terminators
    only. *)
Lemma normalize_data_nil_iff (text : string) :
  normalize_data text = [] ↔ ∀ l, l ∈ Js.split_newline text → l = "".
Proof.
  rewrite normalize_data_distinct. unfold distinct_options. split.
  - intros Hnil%keep_first_nil l Hl.
    destruct (decide (l = "")) as [|Hne]; [done|].
    assert (l ∈ nonblank_lines text) as Hin by by apply nonblank_lines_elem.
    rewrite Hnil in Hin. by apply elem_of_nil in Hin.
  - intros Hall. destruct (nonblank_lines text) as [|l ls] eqn:Hlines; [done|].
    assert (l ∈ nonblank_lines text) as Hin by (rewrite Hlines; apply list_elem_of_here).
    apply nonblank_lines_elem in Hin as [Hin Hne]. by apply Hall in Hin.
Qed.

End Options.

(** ** Running the handlers *)

Section Running.
Context `{Libs}.

Lemma bind_ok {A B} (c : M A) (k : A → M B) (w w' : World) (a : A) :
  c w = (Ok a, w') → bind c k w = k a w'.
Proof. unfold bind. by intros ->. Qed.

Lemma bind_throw {A B} (c : M A) (k : A → M B) (w w' : World) (e : Failure) :
  c w = (Throw e, w') → bind c k w = (Throw e, w').
Proof. unfold bind. by intros ->. Qed.

Lemma data_ok (this : voteData) (w : World) (p : Poll) :
  files w !! VoteData.filePath this = Some (Json p) →
  VoteData.data this w = (Ok p, record (ReadFileSync (VoteData.filePath this)) w).
Proof.
  intros Hfile. unfold VoteData.data, bind, Fs.readFileSync. by rewrite Hfile.
Qed.

Lemma data_malformed (this : voteData) (w : World) (raw : string) :
  files w !! VoteData.filePath this = Some (Malformed raw) →
  VoteData.data this w
    = (Throw CorruptData, record (ReadFileSync (VoteData.filePath this)) w).
Proof.
  intros Hfile. unfold VoteData.data, bind, Fs.readFileSync. by rewrite Hfile.
Qed.

Lemma data_missing (this : voteData) (w : World) :
  files w !! VoteData.filePath this = None →
  VoteData.data this w
    = (Throw NotFound, record (ReadFileSync (VoteData.filePath this)) w).
Proof.
  intros Hfile. unfold VoteData.data, bind, Fs.readFileSync. by rewrite Hfile.
Qed.

(** Rendering the result reads the poll and changes no file. *)
Lemma render_result_ok (this : voteData) (w : World) (p : Poll) :
  files w !! VoteData.filePath this = Some (Json p) →
  ∃ w', render_result this w = (Ok (Render (ResultView (sortData p) (poll_name p))), w')
        ∧ files w' = files w ∧ dirs w' = dirs w
        ∧ res_cookies w' = res_cookies w ∧ session w' = session w
        ∧ ∃ reads, trace w' = (trace w ++ reads)%list
                   ∧ Forall (λ c, c = ReadFileSync (VoteData.filePath this)) reads.
Proof.
  intros Hfile. unfold render_result, VoteData.sortData, VoteData.name.
  eexists. split.
  - erewrite bind_ok; [|erewrite bind_ok; [reflexivity|by apply data_ok]].
    erewrite bind_ok; [reflexivity|].
    erewrite bind_ok; [reflexivity|by apply data_ok].
  - simpl. repeat split; try done.
    exists [ReadFileSync (VoteData.filePath this); ReadFileSync (VoteData.filePath this)].
    split; [by rewrite <- app_assoc|]. by repeat constructor.
Qed.

Lemma render_result_fails (this : voteData) (w : World) :
  (¬ ∃ p, files w !! VoteData.filePath this = Some (Json p)) →
  ∃ e w', render_result this w = (Throw e, w') ∧ files w' = files w
          ∧ res_cookies w' = res_cookies w.
Proof.
  intros Hnot. unfold render_result, VoteData.sortData.
  destruct (files w !! VoteData.filePath this) as [[p|raw]|] eqn:Hfile.
  - destruct Hnot. by exists p.
  - exists CorruptData, (record (ReadFileSync (VoteData.filePath this)) w).
    split; [|done].
    erewrite bind_throw; [reflexivity|].
    erewrite bind_throw; [reflexivity|by apply (data_malformed _ _ raw)].
  - exists NotFound, (record (ReadFileSync (VoteData.filePath this)) w).
    split; [|done].
    erewrite bind_throw; [reflexivity|].
    erewrite bind_throw; [reflexivity|by apply data_missing].
Qed.

End Running.

(** ** Creating a poll: effects and edges *)

Section CreateEffects.
Context `{Libs}.

(** X5. A create request that passes validation and whose [data] is
    text redirects to the form of the new identifier and touches the
    path of the new poll only: the file there holds the sanitized
    name, the normalised options, the time of the request and no
    tally; every other file is as before (a file already at that path
    is replaced); the directory of the file is asked for and no
    directory is removed. *)
Theorem post_create_touches_only_new_poll
    (env : Env) (req : Request) fs ds s (text : string) :
  getMessages (sanitizeData req) = [] →
  sd_data (sanitizeData req) = Some text →
  let r := post_create env req (enter fs ds s) in
  r.1 = Ok (Redirect (baseUrl req +:+ "/form/" +:+ fresh_id env +:+ "/"))
  ∧ files r.2 !! path_of_id (fresh_id env)
      = Some (Json (mkPoll (sd_name (sanitizeData req)) (normalize_data text) (now env) ∅))
  ∧ (∀ path, path ≠ path_of_id (fresh_id env) → files r.2 !! path = fs !! path)
  ∧ dirname (path_of_id (fresh_id env)) ∈ dirs r.2
  ∧ ds ⊆ dirs r.2.
Proof.
  intros Hmsgs Htext r. subst r.
  rewrite (post_create_valid env req fs ds s text) by done. simpl.
  split; [done|]. split; [apply lookup_insert_eq|].
  split; [|set_solver]. intros path Hne. by apply lookup_insert_ne.
Qed.

(** X6. The create handler checks nothing after it has normalised the
    options: when validation lets a text through whose lines are all
    empty, a poll without any option is written and the request
    succeeds. *)
Theorem post_create_stores_empty_poll
    (env : Env) (req : Request) fs ds s (text : string) :
  getMessages (sanitizeData req) = [] →
  sd_data (sanitizeData req) = Some text →
  (∀ l, l ∈ Js.split_newline text → l = "") →
  let r := post_create env req (enter fs ds s) in
  r.1 = Ok (Redirect (baseUrl req +:+ "/form/" +:+ fresh_id env +:+ "/"))
  ∧ ∃ p, files r.2 !! path_of_id (fresh_id env) = Some (Json p) ∧ poll_data p = [].
Proof.
  intros Hmsgs Htext Hblank r. subst r.
  rewrite (post_create_valid env req fs ds s text) by done. simpl.
  split; [done|]. eexists. split; [apply lookup_insert_eq|].
  simpl. by apply normalize_data_nil_iff.
Qed.

(** X7. When validation lets a submission through whose [data] holds
    no string, [split] throws a TypeError: by then the session is
    reset and the directory made, but no file is written. *)
Theorem post_create_data_not_text
    (env : Env) (req : Request) fs ds s :
  getMessages (sanitizeData req) = [] →
  sd_data (sanitizeData req) = None →
  let r := post_create env req (enter fs ds s) in
  r.1 = Throw TypeError
  ∧ files r.2 = fs
  ∧ dirs r.2 = {[dirname (path_of_id (fresh_id env))]} ∪ ds
  ∧ session r.2 = None
  ∧ (∀ path, WriteFileSync path ∉ trace r.2).
Proof.
  intros Hmsgs Htext r. subst r. rewrite post_create_no_text by done. simpl.
  repeat split; try done.
  intros path Hin. by repeat (apply elem_of_cons in Hin as [?|Hin]; [done|]);
    apply elem_of_nil in Hin.
Qed.

End CreateEffects.

(** ** Voting: order, effects and composition *)

Section VoteEffects.
Context `{Libs}.

Lemma isVoted_false (env : Env) (req : Request) :
  cookies req !! cookie_of_id (params_id req) = None →
  VoteData.isVoted (new_voteData env (Some (params_id req))) req = false.
Proof.
  intros Hnone. unfold VoteData.isVoted. simpl. rewrite Hnone.
  apply bool_decide_eq_false_2. by intros [? ?].
Qed.

(** The vote handler on a request without the cookie, up to the
    rendering: the cookie is set, then [vote] is called on the key of
    the body. *)
Lemma post_result_fresh (env : Env) (req : Request) fs ds s :
  cookies req !! cookie_of_id (params_id req) = None →
  let this := new_voteData env (Some (params_id req)) in
  let c := cookie_of_id (params_id req) in
  let key := body req !! "key" in
  post_result env req (enter fs ds s) =
    match fs !! path_of_id (params_id req) with
    | Some (Json p) =>
        render_result this
          (mkWorld (<[path_of_id (params_id req) := Json (from_option (vote p) p key)]> fs)
             ds (Some s) ({[c]} ∪ ∅)
             [SetCookie c; Vote key; ReadFileSync (path_of_id (params_id req));
              WriteFileSync (path_of_id (params_id req))])
    | Some (Malformed _) =>
        (Throw CorruptData,
         mkWorld fs ds (Some s) ({[c]} ∪ ∅)
           [SetCookie c; Vote key; ReadFileSync (path_of_id (params_id req))])
    | None =>
        (Throw NotFound,
         mkWorld fs ds (Some s) ({[c]} ∪ ∅)
           [SetCookie c; Vote key; ReadFileSync (path_of_id (params_id req))])
    end.
Proof.
  intros Hnone this c key. unfold post_result.
  rewrite isVoted_false by done. fold this.
  unfold VoteData.setUniquenessCookie, VoteData.vote, VoteData.data.
  unfold Fs.readFileSync, Fs.writeFileSync, VoteData.filePath, bind. simpl.
  by destruct (fs !! path_of_id (params_id req)) as [[p|raw]|].
Qed.

End VoteEffects.

Section VoteTheorems.
Context `{Libs}.

Lemma post_result_fresh_cookie (env : Env) (req : Request) fs ds s :
  cookies req !! cookie_of_id (params_id req) = None →
  let w' := (post_result env req (enter fs ds s)).2 in
  cookie_of_id (params_id req) ∈ res_cookies w'
  ∧ ∃ later, trace w' = SetCookie (cookie_of_id (params_id req))
                          :: Vote (body req !! "key") :: later.
Proof.
  intros Hnone w'. subst w'. rewrite post_result_fresh by done.
  destruct (fs !! path_of_id (params_id req)) as [[p|raw]|] eqn:Hfile; simpl.
  - match goal with |- context [render_result ?this ?w] =>
      destruct (render_result_ok this w (from_option (vote p) p (body req !! "key")))
        as (w' & -> & _ & _ & Hcookies & _ & reads & Htrace & _)
    end; [apply lookup_insert_eq|].
    simpl. rewrite Hcookies, Htrace. simpl.
    split; [set_solver|by eexists].
  - split; [set_solver|by eexists].
  - split; [set_solver|by eexists].
Qed.

(** X8. On a vote request without the cookie of the poll the handler
    sets the cookie first and then calls [vote] with the key of the
    body, whatever that key is and whatever becomes of the vote: the
    response carries the cookie even when the vote fails. *)
Theorem post_result_marks_before_voting
    (env : Env) (req : Request) fs ds s :
  cookies req !! cookie_of_id (params_id req) = None →
  let w' := (post_result env req (enter fs ds s)).2 in
  cookie_of_id (params_id req) ∈ res_cookies w'
  ∧ ∃ later, trace w' = SetCookie (cookie_of_id (params_id req))
                          :: Vote (body req !! "key") :: later.
Proof. apply post_result_fresh_cookie. Qed.

(** X9. A vote request without the cookie on a poll whose file parses
    is counted and shown: the file then holds the poll so voted, no
    other file changes, the cookie of the poll is the one cookie set,
    and the response renders the sorted tallies of the poll as voted. *)
Theorem post_result_counts_and_shows
    (env : Env) (req : Request) fs ds s (p : Poll) :
  cookies req !! cookie_of_id (params_id req) = None →
  fs !! path_of_id (params_id req) = Some (Json p) →
  let voted := from_option (vote p) p (body req !! "key") in
  let r := post_result env req (enter fs ds s) in
  r.1 = Ok (Render (ResultView (sortData voted) (poll_name voted)))
  ∧ files r.2 = <[path_of_id (params_id req) := Json voted]> fs
  ∧ dirs r.2 = ds
  ∧ res_cookies r.2 = {[cookie_of_id (params_id req)]}.
Proof.
  intros Hnone Hfile voted r. subst r.
  rewrite post_result_fresh, Hfile by done.
  match goal with |- context [render_result ?this ?w] =>
    destruct (render_result_ok this w voted)
      as (w' & -> & Hfiles & Hdirs & Hcookies & _)
  end; [apply lookup_insert_eq|].
  simpl. rewrite Hfiles, Hdirs, Hcookies. simpl.
  by rewrite union_empty_r_L.
Qed.

(** X10. A vote request without the cookie on a poll whose file is
    missing or does not parse fails, with NotFound exactly when the
    file is missing; nothing is written, but the cookie is set. *)
Theorem post_result_unreadable_poll
    (env : Env) (req : Request) fs ds s :
  cookies req !! cookie_of_id (params_id req) = None →
  (∀ p, fs !! path_of_id (params_id req) ≠ Some (Json p)) →
  let r := post_result env req (enter fs ds s) in
  r.1 = Throw (match fs !! path_of_id (params_id req) with
               | Some _ => CorruptData
               | None => NotFound
               end)
  ∧ files r.2 = fs
  ∧ (∀ path, WriteFileSync path ∉ trace r.2)
  ∧ cookie_of_id (params_id req) ∈ res_cookies r.2.
Proof.
  intros Hnone Hbad r. subst r. rewrite post_result_fresh by done.
  destruct (fs !! path_of_id (params_id req)) as [[p|raw]|] eqn:Hfile.
  - by destruct (Hbad p).
  - simpl. repeat split; [|set_solver].
    intros path Hin. by repeat (apply elem_of_cons in Hin as [?|Hin]; [done|]);
      apply elem_of_nil in Hin.
  - simpl. repeat split; [|set_solver].
    intros path Hin. by repeat (apply elem_of_cons in Hin as [?|Hin]; [done|]);
      apply elem_of_nil in Hin.
Qed.

(** X11. One browser, two vote requests on the same poll: whatever
    the first request did, when the second carries the cookies the
    browser held and those the first response set, it changes no file
    and is redirected to the form with [is_voted=1]. *)
Theorem post_result_second_vote_refused
    (env env2 : Env) (req req2 : Request) fs ds s s2 :
  params_id req2 = params_id req →
  let w1 := (post_result env req (enter fs ds s)).2 in
  (∀ c, is_Some (cookies req !! c) ∨ c ∈ res_cookies w1 → is_Some (cookies req2 !! c)) →
  let r2 := post_result env2 req2 (enter (files w1) (dirs w1) s2) in
  files r2.2 = files w1
  ∧ r2.1 = Ok (Redirect (baseUrl req2 +:+ "/form/" +:+ params_id req2 +:+ "/?is_voted=1")).
Proof.
  intros Hid w1 Hkept r2.
  assert (is_Some (cookies req2 !! cookie_of_id (params_id req2))) as Hvoted.
  { rewrite Hid. apply Hkept.
    destruct (cookies req !! cookie_of_id (params_id req)) as [v|] eqn:Hc;
      [left; by exists v|right].
    by apply (post_result_fresh_cookie env req fs ds s). }
  subst r2. by rewrite post_result_voted.
Qed.

End VoteTheorems.

(** ** The two views and the life of a poll *)

Section Views.
Context `{Libs}.

(** The form handler by what the file of the poll holds. *)
Lemma get_form_run (env : Env) (req : Request) fs ds s :
  let path := path_of_id (params_id req) in
  get_form env req (enter fs ds s) =
    match fs !! path with
    | Some (Json p) =>
        (Ok (Render (FormView (params_id req) (poll_data p) (poll_name p)
                       (is_voted_flag req))),
         mkWorld fs ds (Some s) ∅
           [ReadFileSync path; ReadFileSync path; ReadFileSync path])
    | Some (Malformed _) =>
        (Throw CorruptData, mkWorld fs ds (Some s) ∅ [ReadFileSync path])
    | None =>
        (Throw NotFound, mkWorld fs ds (Some s) ∅ [ReadFileSync path])
    end.
Proof.
  intros path. subst path. unfold get_form, VoteData.name, VoteData.data.
  unfold Fs.readFileSync, VoteData.filePath, bind. simpl.
  destruct (fs !! path_of_id (params_id req)) as [[p|raw]|] eqn:Hfile; [|done..].
  simpl. rewrite Hfile. simpl. by rewrite Hfile.
Qed.

(** X12. The form handler only reads: when the file of the poll
    parses it renders the options and the name of the poll with the
    voted flag of the query, when the file does not parse it fails with
    CorruptData, and in every case the files are as before and no
    cookie is set. *)
Theorem get_form_reads_poll
    (env : Env) (req : Request) fs ds s (c : Content) :
  fs !! path_of_id (params_id req) = Some c →
  let r := get_form env req (enter fs ds s) in
  r.1 = match c with
        | Json p =>
            Ok (Render (FormView (params_id req) (poll_data p) (poll_name p)
                          (is_voted_flag req)))
        | Malformed _ => Throw CorruptData
        end
  ∧ files r.2 = fs
  ∧ res_cookies r.2 = ∅
  ∧ session r.2 = Some s.
Proof.
  intros Hfile r. subst r. rewrite get_form_run, Hfile. by destruct c.
Qed.

(** X13. Create, then open the form: after a create request that
    passes validation, the form of the new identifier renders the
    options the handler normalised and the sanitized name. *)
Theorem create_then_form
    (env env2 : Env) (req req2 : Request) fs ds s s2 (text : string) :
  getMessages (sanitizeData req) = [] →
  sd_data (sanitizeData req) = Some text →
  params_id req2 = fresh_id env →
  let w1 := (post_create env req (enter fs ds s)).2 in
  (get_form env2 req2 (enter (files w1) (dirs w1) s2)).1
    = Ok (Render (FormView (fresh_id env) (normalize_data text)
                    (sd_name (sanitizeData req)) (is_voted_flag req2))).
Proof.
  intros Hmsgs Htext Hid w1. subst w1.
  rewrite (post_create_valid env req fs ds s text) by done. simpl.
  rewrite get_form_run, Hid. simpl. by rewrite lookup_insert_eq.
Qed.

(** X14. The result page only reads: it changes no file, sets no
    cookie and calls neither [vote] nor a write, whether the poll can
    be read or not; when the file of the poll parses it renders the
    sorted tallies and the name. *)
Theorem get_result_reads_only
    (env : Env) (req : Request) fs ds s :
  let r := get_result env req (enter fs ds s) in
  files r.2 = fs
  ∧ res_cookies r.2 = ∅
  ∧ (∀ c, c ∈ trace r.2 → c = ReadFileSync (path_of_id (params_id req)))
  ∧ (∀ p, fs !! path_of_id (params_id req) = Some (Json p) →
       r.1 = Ok (Render (ResultView (sortData p) (poll_name p)))).
Proof.
  intros r. subst r. unfold get_result, render_result, VoteData.sortData, VoteData.name.
  unfold VoteData.data, Fs.readFileSync, VoteData.filePath, bind. simpl.
  destruct (fs !! path_of_id (params_id req)) as [[p|raw]|] eqn:Hfile; simpl;
    rewrite ?Hfile; simpl;
    (split; [done|]); (split; [done|]); (split; [|by intros ? [= <-]]);
    intros c Hin; by repeat (apply elem_of_cons in Hin as [?|Hin]; [done|]);
      apply elem_of_nil in Hin.
Qed.

(** X15. Vote, then look again: after a vote request that was
    counted, the result page of the poll renders what the response to
    the vote rendered. *)
Theorem vote_then_result
    (env env2 : Env) (req req2 : Request) fs ds s s2 (p : Poll) :
  cookies req !! cookie_of_id (params_id req) = None →
  fs !! path_of_id (params_id req) = Some (Json p) →
  params_id req2 = params_id req →
  let r1 := post_result env req (enter fs ds s) in
  (get_result env2 req2 (enter (files r1.2) (dirs r1.2) s2)).1 = r1.1.
Proof.
  intros Hnone Hfile Hid r1. subst r1.
  rewrite post_result_fresh, Hfile by done.
  match goal with |- context [render_result ?this ?w] =>
    destruct (render_result_ok this w (from_option (vote p) p (body req !! "key")))
      as (w' & -> & Hfiles & Hdirs & _)
  end; [apply lookup_insert_eq|].
  simpl. rewrite Hfiles. simpl.
  unfold get_result. rewrite Hid.
  match goal with |- context [render_result ?this ?w] =>
    destruct (render_result_ok this w (from_option (vote p) p (body req !! "key")))
      as (w2 & -> & _)
  end; [apply lookup_insert_eq|]. done.
Qed.

(** X16. Create, then vote: after a create request that passes
    validation, a first vote from a browser without the cookie for any
    non-empty line of the submitted text is counted: the file of the
    poll then holds the normalised options and exactly one tally, 1
    for that option. *)
Theorem create_then_vote
    (env env2 : Env) (req req2 : Request) fs ds s s2 (text o : string) :
  getMessages (sanitizeData req) = [] →
  sd_data (sanitizeData req) = Some text →
  params_id req2 = fresh_id env →
  cookies req2 !! cookie_of_id (fresh_id env) = None →
  body req2 !! "key" = Some o →
  o ∈ Js.split_newline text → o ≠ "" →
  let w1 := (post_create env req (enter fs ds s)).2 in
  let r2 := post_result env2 req2 (enter (files w1) (dirs w1) s2) in
  ∃ p, files r2.2 !! path_of_id (fresh_id env) = Some (Json p)
       ∧ poll_data p = normalize_data text
       ∧ poll_votes p = {[o := 1%nat]}.
Proof.
  intros Hmsgs Htext Hid Hnone Hkey Hline Hne w1 r2. subst r2 w1.
  rewrite (post_create_valid env req fs ds s text) by done. simpl.
  rewrite post_result_fresh by by rewrite Hid.
  rewrite Hid, lookup_insert_eq, Hkey.
  match goal with |- context [render_result ?this ?w] =>
    destruct (render_result_ok this w
                (vote (created_poll (sanitizeData req) text (now env)) o))
      as (w' & -> & Hfiles & _)
  end; [apply lookup_insert_eq|].
  simpl. rewrite Hfiles. simpl. eexists. split; [apply lookup_insert_eq|].
  assert (o ∈ normalize_data text) as Hin.
  { rewrite normalize_data_distinct. unfold distinct_options.
    rewrite keep_first_elem, nonblank_lines_elem.
    split; [done|apply not_elem_of_nil]. }
  unfold vote. simpl. rewrite bool_decide_eq_true_2 by done. simpl.
  split; [done|]. unfold count_of. by rewrite lookup_empty.
Qed.

End Views.

(** ** The further properties on sample requests *)

Lemma normalize_data_single_lines_sample :
  "B" ≠ "" ∧ (Js.LF ∉ list_ascii_of_string "B")
  ∧ "B" ∈ Js.split_newline sample_options.
Proof.
  apply (normalize_data_single_lines sample_options "B").
  change ("B" ∈ ["A"; "B"]). apply list_elem_of_further, list_elem_of_here.
Defined.

Lemma split_newline_join_sample :
  String.concat (String Js.LF "") ["A"; "A"; "B"; ""; ""] = sample_options.
Proof.
  apply (split_newline_join sample_options).
  intros Hin. simpl in Hin.
  by repeat (apply elem_of_cons in Hin as [?|Hin]; [done|]);
    apply elem_of_nil in Hin.
Defined.

Lemma post_create_touches_only_new_poll_sample :
  files (post_create (H := sample_libs) sample_env sample_create
           (enter ∅ ∅ sample_session)).2 !! "data/p1.json"
    = Some (Json (mkPoll (Some "Lunch") ["A"; "B"] 1700000000000 ∅)).
Proof.
  exact (proj1 (proj2 (post_create_touches_only_new_poll (H := sample_libs)
                         sample_env sample_create ∅ ∅ sample_session sample_options
                         eq_refl eq_refl))).
Defined.

Lemma post_create_stores_empty_poll_sample :
  ∃ p, files (post_create (H := lenient_libs) sample_env sample_blank
                (enter ∅ ∅ sample_session)).2 !! "data/p1.json" = Some (Json p)
       ∧ poll_data p = [].
Proof.
  apply (post_create_stores_empty_poll (H := lenient_libs)
           sample_env sample_blank ∅ ∅ sample_session
           (String Js.LF (String Js.LF "")) eq_refl eq_refl).
  intros l Hin. change (l ∈ [""; ""; ""]) in Hin.
  by repeat (apply elem_of_cons in Hin as [?|Hin]; [done|]);
    apply elem_of_nil in Hin.
Defined.

Lemma post_create_data_not_text_sample :
  (post_create (H := lenient_libs) sample_env sample_empty
     (enter ∅ ∅ sample_session)).1 = Throw TypeError.
Proof.
  exact (proj1 (post_create_data_not_text (H := lenient_libs)
                  sample_env sample_empty ∅ ∅ sample_session eq_refl eq_refl)).
Defined.

Lemma post_result_marks_before_voting_sample :
  "voted_p1" ∈ res_cookies (post_result (H := sample_libs) sample_env sample_first_vote
                              (enter ∅ ∅ sample_session)).2.
Proof.
  exact (proj1 (post_result_marks_before_voting (H := sample_libs)
                  sample_env sample_first_vote ∅ ∅ sample_session eq_refl)).
Defined.

Lemma post_result_counts_and_shows_sample :
  (post_result (H := sample_libs) sample_env sample_first_vote
     (enter (<["data/p1.json" := Json sample_poll]> ∅) ∅ sample_session)).1
    = Ok (Render (ResultView (sortData (vote sample_poll "A")) (Some "Lunch"))).
Proof.
  exact (proj1 (post_result_counts_and_shows (H := sample_libs)
                  sample_env sample_first_vote
                  (<["data/p1.json" := Json sample_poll]> ∅) ∅ sample_session
                  sample_poll eq_refl eq_refl)).
Defined.

Lemma post_result_unreadable_poll_sample :
  (post_result (H := sample_libs) sample_env sample_first_vote
     (enter ∅ ∅ sample_session)).1 = Throw NotFound.
Proof.
  refine (proj1 (post_result_unreadable_poll (H := sample_libs)
                   sample_env sample_first_vote ∅ ∅ sample_session eq_refl _)).
  intros p Hp. by rewrite lookup_empty in Hp.
Defined.

Lemma post_result_second_vote_refused_sample :
  (post_result (H := sample_libs) sample_env sample_second_vote
     (enter (files (post_result (H := sample_libs) sample_env sample_first_vote
                      (enter ∅ ∅ sample_session)).2)
        (dirs (post_result (H := sample_libs) sample_env sample_first_vote
                 (enter ∅ ∅ sample_session)).2)
        sample_session)).1
    = Ok (Redirect "/form/p1/?is_voted=1").
Proof.
  apply (post_result_second_vote_refused (H := sample_libs)
           sample_env sample_env sample_first_vote sample_second_vote
           ∅ ∅ sample_session sample_session eq_refl).
  intros c [[v Hv]|Hin].
  - simpl in Hv. by rewrite lookup_empty in Hv.
  - rewrite (post_result_fresh (H := sample_libs)) in Hin by reflexivity.
    rewrite lookup_empty in Hin. simpl in Hin.
    apply elem_of_union in Hin as [->%elem_of_singleton|Hin];
      [by eexists|by apply not_elem_of_empty in Hin].
Defined.

Lemma get_form_reads_poll_sample :
  (get_form (H := sample_libs) sample_env sample_vote
     (enter (<["data/p1.json" := Json sample_poll]> ∅) ∅ sample_session)).1
    = Ok (Render (FormView "p1" ["A"; "B"; "C"] (Some "Lunch") false)).
Proof.
  exact (proj1 (get_form_reads_poll (H := sample_libs) sample_env sample_vote
                  (<["data/p1.json" := Json sample_poll]> ∅) ∅ sample_session
                  (Json sample_poll) eq_refl)).
Defined.

Lemma create_then_form_sample :
  (get_form (H := sample_libs) sample_env sample_vote
     (enter (files (post_create (H := sample_libs) sample_env sample_create
                      (enter ∅ ∅ sample_session)).2)
        (dirs (post_create (H := sample_libs) sample_env sample_create
                 (enter ∅ ∅ sample_session)).2)
        sample_session)).1
    = Ok (Render (FormView "p1" ["A"; "B"] (Some "Lunch") false)).
Proof.
  exact (create_then_form (H := sample_libs) sample_env sample_env
           sample_create sample_vote ∅ ∅ sample_session sample_session
           sample_options eq_refl eq_refl eq_refl).
Defined.

Lemma vote_then_result_sample :
  (get_result (H := sample_libs) sample_env sample_vote
     (enter (files (post_result (H := sample_libs) sample_env sample_first_vote
                      (enter (<["data/p1.json" := Json sample_poll]> ∅) ∅
                         sample_session)).2)
        (dirs (post_result (H := sample_libs) sample_env sample_first_vote
                 (enter (<["data/p1.json" := Json sample_poll]> ∅) ∅
                    sample_session)).2)
        sample_session)).1
    = (post_result (H := sample_libs) sample_env sample_first_vote
         (enter (<["data/p1.json" := Json sample_poll]> ∅) ∅ sample_session)).1.
Proof.
  exact (vote_then_result (H := sample_libs) sample_env sample_env
           sample_first_vote sample_vote
           (<["data/p1.json" := Json sample_poll]> ∅) ∅ sample_session sample_session
           sample_poll eq_refl eq_refl eq_refl).
Defined.

Lemma create_then_vote_sample :
  ∃ p, files (post_result (H := sample_libs) sample_env sample_first_vote
                (enter (files (post_create (H := sample_libs) sample_env sample_create
                                 (enter ∅ ∅ sample_session)).2)
                   (dirs (post_create (H := sample_libs) sample_env sample_create
                            (enter ∅ ∅ sample_session)).2)
                   sample_session)).2 !! "data/p1.json" = Some (Json p)
       ∧ poll_data p = ["A"; "B"]
       ∧ poll_votes p = {["A" := 1%nat]}.
Proof.
  apply (create_then_vote (H := sample_libs) sample_env sample_env
           sample_create sample_first_vote ∅ ∅ sample_session sample_session
           sample_options "A" eq_refl eq_refl eq_refl eq_refl eq_refl).
  - change ("A" ∈ ["A"; "A"; "B"; ""; ""]). apply list_elem_of_here.
  - done.
Defined.

(** ** Line ends *)

Section LineEnds.

Lemma split_newline_plain (c : ascii) (rest : string) :
  Js.is_lf c = false → Js.is_cr c = false →
  Js.split_newline (String c rest) = Js.push_front c (Js.split_newline rest).
Proof.
  intros Hlf Hcr. rewrite split_newline_cons, Hlf, Hcr. by destruct rest.
Qed.

Lemma is_cr_false (c : ascii) : Js.is_cr c = false ↔ c ≠ Js.CR.
Proof. apply Ascii.eqb_neq. Qed.

Lemma no_cr_cons (c : ascii) (rest : string) :
  Js.CR ∉ list_ascii_of_string (String c rest) →
  Js.is_cr c = false ∧ Js.CR ∉ list_ascii_of_string rest.
Proof.
  simpl. intros [Hne Hrest]%not_elem_of_cons. split; [|done].
  by apply is_cr_false.
Qed.

Lemma split_newline_to_crlf (text : string) :
  Js.CR ∉ list_ascii_of_string text →
  Js.split_newline (to_crlf text) = Js.split_newline text.
Proof.
  induction text as [|c rest IH]; [done|].
  intros [Hcr Hrest]%no_cr_cons. simpl to_crlf.
  destruct (Js.is_lf c) eqn:Hlf.
  - rewrite (split_newline_cons c), Hlf.
    rewrite split_newline_cons. simpl. by rewrite IH.
  - rewrite !split_newline_plain by done. by rewrite IH.
Qed.

Lemma push_front_app (c : ascii) (pieces more : list string) :
  pieces ≠ [] → Js.push_front c (pieces ++ more) = (Js.push_front c pieces ++ more)%list.
Proof. by destruct pieces. Qed.

Lemma split_newline_trailing (text : string) :
  Js.CR ∉ list_ascii_of_string text →
  Js.split_newline (text +:+ String Js.LF "") = (Js.split_newline text ++ [""])%list.
Proof.
  induction text as [|c rest IH]; [done|].
  intros [Hcr Hrest]%no_cr_cons.
  change (String c rest +:+ String Js.LF "") with (String c (rest +:+ String Js.LF "")).
  destruct (Js.is_lf c) eqn:Hlf.
  - rewrite !(split_newline_cons c), Hlf. by rewrite IH.
  - rewrite !split_newline_plain by done. rewrite IH by done.
    apply push_front_app, split_newline_nonempty.
Qed.

(** X17. The create handler keeps the same options whether the lines
    of the text end in a line feed or in a carriage return with a line
    feed: on a text without carriage return, turning every line feed
    into the pair changes nothing. *)
Theorem normalize_data_crlf (text : string) :
  Js.CR ∉ list_ascii_of_string text →
  normalize_data (to_crlf text) = normalize_data text.
Proof.
  intros Hcr. unfold normalize_data. by rewrite split_newline_to_crlf.
Qed.

(** X18. A line feed after the last line makes no difference to the
    options the create handler keeps, on a text without carriage
    return. *)
Theorem normalize_data_trailing_newline (text : string) :
  Js.CR ∉ list_ascii_of_string text →
  normalize_data (text +:+ String Js.LF "") = normalize_data text.
Proof.
  intros Hcr. unfold normalize_data.
  rewrite split_newline_trailing by done.
  rewrite List.filter_app. simpl. by rewrite app_nil_r.
Qed.

Lemma sample_options_no_cr : Js.CR ∉ list_ascii_of_string sample_options.
Proof.
  intros Hin. simpl in Hin.
  by repeat (apply elem_of_cons in Hin as [?|Hin]; [done|]);
    apply elem_of_nil in Hin.
Defined.

Lemma normalize_data_crlf_sample :
  normalize_data (to_crlf sample_options) = ["A"; "B"].
Proof. exact (normalize_data_crlf sample_options sample_options_no_cr). Defined.

Lemma normalize_data_trailing_newline_sample :
  normalize_data (sample_options +:+ String Js.LF "") = ["A"; "B"].
Proof.
  exact (normalize_data_trailing_newline sample_options sample_options_no_cr).
Defined.

End LineEnds.
